(** * A shallow embedding of the blog application (src/main.py)

    The Flask application is modelled as a family of request handlers
    running in a small state-and-exception monad over a [World] made of
    the two SQL tables, the client's login session and the flashed
    messages.  The libraries the handlers call (Flask-Login, the ORM
    session, werkzeug's password hashing, the WTForms validators of
    forms.py) appear as small models or as type-class parameters. *)

From Stdlib Require Import String List Bool Arith PeanoNat Lia ZArith.
Import ListNotations.
Local Open Scope string_scope.
Local Open Scope list_scope.
Local Open Scope nat_scope.

Set Implicit Arguments.

(* ================================================================== *)
(** ** Tables (lines 40-65) *)

Module User.
Record t := mk
  { id : nat;
    username : string;
    email : string;
    password : string }.
End User.

Module BlogPost.
Record t := mk
  { id : nat;
    user_id : nat;
    title : string;
    subtitle : string;
    date : string;
    body : string;
    img_url : string }.
End BlogPost.

(** Options of an ORM relationship's [cascade] argument. *)
Inductive CascadeOption :=
| save_update | merge | refresh_expire | expunge | delete | delete_orphan.

Definition CascadeOption_eqb (a b : CascadeOption) : bool :=
  match a, b with
  | save_update, save_update | merge, merge | refresh_expire, refresh_expire
  | expunge, expunge | delete, delete | delete_orphan, delete_orphan => true
  | _, _ => false
  end.

(** ["all"] abbreviates every option but [delete-orphan]. *)
Definition cascade_all : list CascadeOption :=
  [save_update; merge; refresh_expire; expunge; delete].

(** [User.blog_posts = relationship(..., cascade="all, delete")], line 47. *)
Definition User_blog_posts_cascade : list CascadeOption :=
  cascade_all ++ [delete].

Record DB := mkDB
  { users : list User.t;
    blog_posts : list BlogPost.t }.

Definition empty_db : DB := mkDB [] [].

(* ================================================================== *)
(** ** Forms (forms.py is not part of the sources: only the fields that
       main.py reads are declared, validation is a parameter) *)

Module LoginForm.
Record t := mk { email : string; password : string }.
End LoginForm.

Module RegisterForm.
Record t := mk { username : string; email : string; password : string }.
End RegisterForm.

Module CreatePostForm.
Record t := mk
  { title : string; subtitle : string; img_url : string; body : string }.
End CreatePostForm.

Inductive Method := GET | POST.

Record Request (F : Type) := mkRequest
  { method : Method;
    form : F }.

(** The validators declared in forms.py. *)
Class Forms := mkForms
  { validate_LoginForm : LoginForm.t -> bool;
    validate_RegisterForm : RegisterForm.t -> bool;
    validate_CreatePostForm : CreatePostForm.t -> bool }.

(** werkzeug.security, a trusted black box.  The first argument of
    [generate_password_hash] is the random salt drawn for the call. *)
Class Security := mkSecurity
  { generate_password_hash : string -> string -> string;
    check_password_hash : string -> string -> bool }.

(** [FlaskForm.validate_on_submit]: the request is a submission and the
    form validates. *)
Definition validate_on_submit {F : Type} (validate : F -> bool)
  (req : Request F) : bool :=
  match method req with
  | POST => validate (form req)
  | GET => false
  end.

(* ================================================================== *)
(** ** Exceptions, responses and the handler monad *)

Inductive Exception :=
| IntegrityError (constraint : string)
| MultipleResultsFound
| AttributeError (what : string)
| RuntimeError (what : string)
| OverflowError (what : string)
| ArgumentError (what : string)
| OperationalError (what : string).

Inductive Halt :=
| HTTPException (code : nat)
| Unhandled (e : Exception).

Inductive Url :=
| url_for (endpoint : string) (post_id : option nat).

Inductive TemplateArgs :=
| no_args
| index_args (all_posts : list BlogPost.t) (logged : bool)
| login_args (form : LoginForm.t)
| register_args (form : RegisterForm.t)
| post_args (post : BlogPost.t)
| make_post_args (form : CreatePostForm.t) (is_edit : bool).

Inductive Response :=
| render_template (template : string) (args : TemplateArgs)
| redirect (location : Url).

(** [session] is the [_user_id] slot Flask-Login keeps in the client's
    session; [flashes] are the (category, message) pairs queued by
    [flash]. *)
Record World := mkWorld
  { db : DB;
    session : option nat;
    flashes : list (string * string) }.

Definition M (A : Type) : Type := World -> (Halt + A) * World.

Definition ret {A : Type} (a : A) : M A := fun w => (inr a, w).

Definition bind {A B : Type} (m : M A) (k : A -> M B) : M B :=
  fun w =>
    match m w with
    | (inl h, w') => (inl h, w')
    | (inr a, w') => k a w'
    end.

Notation "x <- m ;; k" := (bind m (fun x => k))
  (at level 61, m at next level, right associativity).
Notation "m ;; k" := (bind m (fun _ => k))
  (at level 61, right associativity).

Definition abort {A : Type} (code : nat) : M A :=
  fun w => (inl (HTTPException code), w).

Definition raise {A : Type} (e : Exception) : M A :=
  fun w => (inl (Unhandled e), w).

Definition get_db : M DB := fun w => (inr (db w), w).

Definition get_session : M (option nat) := fun w => (inr (session w), w).

Definition put_db (d : DB) : M unit :=
  fun w => (inr tt, mkWorld d (session w) (flashes w)).

Definition put_session (s : option nat) : M unit :=
  fun w => (inr tt, mkWorld (db w) s (flashes w)).

Definition flash (message category : string) : M unit :=
  fun w => (inr tt, mkWorld (db w) (session w) (flashes w ++ [(category, message)])).

(** A store operation either raises (nothing is committed) or commits. *)
Definition commit {A : Type} (op : DB -> Exception + (A * DB)) : M A :=
  d <- get_db ;;
  match op d with
  | inl e => raise e
  | inr (a, d') => put_db d' ;; ret a
  end.

(* ================================================================== *)
(** ** The storage layer *)

Definition get_User (d : DB) (ident : nat) : option User.t :=
  find (fun u => User.id u =? ident) (users d).

Definition get_BlogPost (d : DB) (ident : nat) : option BlogPost.t :=
  find (fun p => BlogPost.id p =? ident) (blog_posts d).

(** [select(User).where(User.email == email)] *)
Definition select_User_where_email (d : DB) (email : string) : list User.t :=
  filter (fun u => String.eqb (User.email u) email) (users d).

Definition scalar_one_or_none {A : Type} (rows : list A) : Exception + option A :=
  match rows with
  | [] => inr None
  | [x] => inr (Some x)
  | _ => inl MultipleResultsFound
  end.

Definition scalar {A : Type} (rows : list A) : option A := hd_error rows.

(** Integer primary keys: the row after the largest one in the table. *)
Definition next_id (ids : list nat) : nat := S (list_max ids).

(** INSERT INTO users, with the UNIQUE constraint on [email]. *)
Definition insert_User (username email password : string) (d : DB)
  : Exception + (User.t * DB) :=
  if existsb (fun u => String.eqb (User.email u) email) (users d)
  then inl (IntegrityError "users.email")
  else
    let u := User.mk (next_id (map User.id (users d))) username email password in
    inr (u, mkDB (users d ++ [u]) (blog_posts d)).

(** INSERT INTO blog_posts, with the UNIQUE constraint on [title]. *)
Definition insert_BlogPost (user_id : nat) (title subtitle date body img_url : string)
  (d : DB) : Exception + (BlogPost.t * DB) :=
  if existsb (fun p => String.eqb (BlogPost.title p) title) (blog_posts d)
  then inl (IntegrityError "blog_posts.title")
  else
    let p := BlogPost.mk (next_id (map BlogPost.id (blog_posts d)))
               user_id title subtitle date body img_url in
    inr (p, mkDB (users d) (blog_posts d ++ [p])).

(** UPDATE blog_posts ... WHERE id = old.id.  The UNIQUE constraint on
    [title] is checked when the title column is written. *)
Definition update_BlogPost (old new : BlogPost.t) (d : DB)
  : Exception + (unit * DB) :=
  if negb (String.eqb (BlogPost.title old) (BlogPost.title new))
     && existsb (fun q => negb (BlogPost.id q =? BlogPost.id old)
                          && String.eqb (BlogPost.title q) (BlogPost.title new))
          (blog_posts d)
  then inl (IntegrityError "blog_posts.title")
  else
    inr (tt, mkDB (users d)
               (map (fun q => if BlogPost.id q =? BlogPost.id old then new else q)
                  (blog_posts d))).

(** DELETE FROM blog_posts WHERE id = p.id. *)
Definition delete_BlogPost (p : BlogPost.t) (d : DB) : Exception + (unit * DB) :=
  inr (tt, mkDB (users d)
             (filter (fun q => negb (BlogPost.id q =? BlogPost.id p)) (blog_posts d))).

(** [db.session.delete(user)] followed by a commit, under the cascade
    declared on the relationship from users to posts: with [delete] the
    owned posts go with the user; without it the ORM would null their
    [user_id], which the NOT NULL column (line 57) refuses. *)
Definition delete_User (cascade : list CascadeOption) (u : User.t) (d : DB)
  : Exception + (unit * DB) :=
  let owned := fun p : BlogPost.t => BlogPost.user_id p =? User.id u in
  let others := filter (fun v => negb (User.id v =? User.id u)) (users d) in
  if existsb (CascadeOption_eqb delete) cascade
  then inr (tt, mkDB others (filter (fun p => negb (owned p)) (blog_posts d)))
  else if existsb owned (blog_posts d)
       then inl (IntegrityError "blog_posts.user_id")
       else inr (tt, mkDB others (blog_posts d)).

(** The store binds integer parameters as signed 64-bit values; the
    [<int:post_id>] converter of the routes has no upper bound. *)
Definition out_of_range (n : nat) : bool :=
  (2 ^ 63 <=? Z.of_nat n)%Z.

(** [db.get_or_404(BlogPost, post_id)].  A key the store holds is
    within its integer range, so the range only shows on a miss: a key
    that cannot be bound makes the lookup raise instead of answering
    404. *)
Definition get_or_404 (post_id : nat) : M BlogPost.t :=
  d <- get_db ;;
  match get_BlogPost d post_id with
  | Some p => ret p
  | None =>
      if out_of_range post_id
      then raise (OverflowError "Python int too large to convert to SQLite INTEGER")
      else abort 404
  end.

(** How [get_or_404] ends for a key it does not find. *)
Definition miss (post_id : nat) : Halt :=
  if out_of_range post_id
  then Unhandled (OverflowError "Python int too large to convert to SQLite INTEGER")
  else HTTPException 404.

Definition execute {A : Type} (q : DB -> Exception + A) : M A :=
  d <- get_db ;;
  match q d with
  | inl e => raise e
  | inr a => ret a
  end.

(* ================================================================== *)
(** ** Flask-Login *)

(** The Python values that meet in the comparison of line 77. *)
Inductive PyObject :=
| PyInt (n : Z)
| PyUser (u : User.t)
| PyAnonymous.

(** [UserMixin.__eq__]: compares ids with another [UserMixin] and is
    [NotImplemented] (here [None]) for anything else. *)
Definition UserMixin__eq__ (self : User.t) (other : PyObject) : option bool :=
  match other with
  | PyUser o => Some (User.id self =? User.id o)
  | _ => None
  end.

Definition UserMixin__ne__ (self : User.t) (other : PyObject) : option bool :=
  option_map negb (UserMixin__eq__ self other).

Definition py_is (x y : PyObject) : bool :=
  match x, y with
  | PyInt n, PyInt m => Z.eqb n m
  | PyAnonymous, PyAnonymous => true
  | _, _ => false
  end.

(** The [__ne__] slot of the left operand's type. *)
Definition type__ne__ (x y : PyObject) : option bool :=
  match x with
  | PyUser u => UserMixin__ne__ u y
  | PyInt n => match y with PyInt m => Some (negb (Z.eqb n m)) | _ => None end
  | PyAnonymous => if py_is x y then Some false else None
  end.

(** Python's [x != y]: the left slot, then the reflected one, then
    object identity. *)
Definition py_ne (x y : PyObject) : bool :=
  match type__ne__ x y with
  | Some b => b
  | None =>
      match type__ne__ y x with
      | Some b => b
      | None => negb (py_is x y)
      end
  end.

(** [load_user], lines 68-70. *)
Definition load_user (user_id : nat) : M (option User.t) :=
  d <- get_db ;;
  ret (get_User d user_id).

(** The [current_user] proxy: the user loaded from the session, [None]
    standing for the anonymous user. *)
Definition current_user : M (option User.t) :=
  s <- get_session ;;
  match s with
  | Some user_id => load_user user_id
  | None => ret None
  end.

Definition is_authenticated (cu : option User.t) : bool :=
  match cu with
  | Some _ => true
  | None => false
  end.

Definition login_user (user : User.t) : M unit :=
  put_session (Some (User.id user)).

Definition logout_user : M unit := put_session None.

(* ================================================================== *)
(** ** Decorators *)

Definition View (A : Type) : Type := A -> M Response.

(** [LoginManager.unauthorized] with [login_view = 'login'] (line 36). *)
Definition unauthorized : M Response :=
  flash "Please log in to access this page." "message" ;;
  ret (redirect (url_for "login" None)).

Definition login_required {A : Type} (func : View A) : View A :=
  fun args =>
    cu <- current_user ;;
    if negb (is_authenticated cu) then unauthorized else func args.

(** [admin_or_author], lines 73-81.  The [or] of line 77 short-cuts:
    [current_user.id] is read for an authenticated user only. *)
Definition admin_or_author {A : Type} (f : View (nat * A)) : View (nat * A) :=
  fun '(post_id, args) =>
    post <- get_or_404 post_id ;;
    cu <- current_user ;;
    match cu with
    | None => abort 403
    | Some u =>
        if py_ne (PyUser u) (PyInt 1)
           && negb (User.id u =? BlogPost.user_id post)
        then abort 403
        else f (post_id, args)
    end.

(** [app.route(rule)] stores the function it is given in the
    application's view table and hands the same function back: the
    first component is the view table's entry, the second what the
    decorators written above [@app.route] receive. *)
Definition route {A : Type} (f : View A) : View A * View A := (f, f).

(* ================================================================== *)
(** ** Views *)

Section Views.

Context {forms : Forms} {security : Security}.

(** lines 88-93 *)
Definition get_all_posts : View unit :=
  fun _ =>
    d <- get_db ;;
    cu <- current_user ;;
    ret (render_template "index.html"
           (index_args (blog_posts d) (is_authenticated cu))).

(** lines 96-111 *)
Definition login : View (Request LoginForm.t) :=
  fun req =>
    let form := form req in
    if validate_on_submit validate_LoginForm req then
      let email := LoginForm.email form in
      user <- execute (fun d => scalar_one_or_none (select_User_where_email d email)) ;;
      match user with
      | Some user =>
          if check_password_hash (User.password user) (LoginForm.password form)
          then
            login_user user ;;
            ret (redirect (url_for "get_all_posts" None))
          else
            flash "Incorrect Password!" "danger" ;;
            ret (render_template "login.html" (login_args form))
      | None =>
          flash "Email doesn't exist !" "danger" ;;
          ret (redirect (url_for "register" None))
      end
    else ret (render_template "login.html" (login_args form)).

(** lines 114-134; [salt] is the salt drawn by [generate_password_hash]. *)
Definition register : View (string * Request RegisterForm.t) :=
  fun '(salt, req) =>
    let form := form req in
    if validate_on_submit validate_RegisterForm req then
      let email := RegisterForm.email form in
      email_exist <- execute (fun d => inr (scalar (select_User_where_email d email))) ;;
      match email_exist with
      | Some _ =>
          flash "Already Logged in" "danger" ;;
          ret (redirect (url_for "login" None))
      | None =>
          let password := generate_password_hash salt (RegisterForm.password form) in
          new_user <- commit (insert_User (RegisterForm.username form)
                                (RegisterForm.email form) password) ;;
          login_user new_user ;;
          ret (redirect (url_for "get_all_posts" None))
      end
    else ret (render_template "register.html" (register_args form)).

(** lines 137-140 *)
Definition logout : View unit :=
  fun _ =>
    logout_user ;;
    ret (redirect (url_for "get_all_posts" None)).

(** lines 143-146 *)
Definition show_post : View nat :=
  fun post_id =>
    requested_post <- get_or_404 post_id ;;
    ret (render_template "post.html" (post_args requested_post)).

(** lines 151-165; [today] is [date.today().strftime("%B %d, %Y")].
    The anonymous user is no mapped instance: handing it to the
    [author] relationship raises. *)
Definition add_new_post : View (string * Request CreatePostForm.t) :=
  fun '(today, req) =>
    let form := form req in
    if validate_on_submit validate_CreatePostForm req then
      cu <- current_user ;;
      match cu with
      | None => raise (AttributeError "_sa_instance_state")
      | Some author =>
          commit (insert_BlogPost (User.id author)
                    (CreatePostForm.title form) (CreatePostForm.subtitle form)
                    today (CreatePostForm.body form) (CreatePostForm.img_url form)) ;;
          ret (redirect (url_for "get_all_posts" None))
      end
    else ret (render_template "make-post.html" (make_post_args form false)).

(** lines 171-188.  [post.author] is loaded through [post.user_id]; the
    form shows the submitted fields on a submission and the post's own
    otherwise. *)
Definition edit_post : View (nat * Request CreatePostForm.t) :=
  fun '(post_id, req) =>
    post <- get_or_404 post_id ;;
    author <- load_user (BlogPost.user_id post) ;;
    match author with
    | None => raise (AttributeError "username")
    | Some _ =>
        let edit_form :=
          match method req with
          | POST => form req
          | GET => CreatePostForm.mk (BlogPost.title post) (BlogPost.subtitle post)
                     (BlogPost.img_url post) (BlogPost.body post)
          end in
        if validate_on_submit validate_CreatePostForm req then
          cu <- current_user ;;
          match cu with
          | None => raise (AttributeError "_sa_instance_state")
          | Some u =>
              commit (update_BlogPost post
                        (BlogPost.mk (BlogPost.id post) (User.id u)
                           (CreatePostForm.title edit_form)
                           (CreatePostForm.subtitle edit_form)
                           (BlogPost.date post)
                           (CreatePostForm.body edit_form)
                           (CreatePostForm.img_url edit_form))) ;;
              ret (redirect (url_for "show_post" (Some (BlogPost.id post))))
          end
        else ret (render_template "make-post.html" (make_post_args edit_form true))
    end.

(** lines 193-198 *)
Definition delete_post : View (nat * unit) :=
  fun '(post_id, _) =>
    post_to_delete <- get_or_404 post_id ;;
    user <- execute (fun d => inr (users d)) ;;
    commit (delete_BlogPost post_to_delete) ;;
    ret (redirect (url_for "get_all_posts" None)).

(** lines 201-208 *)
Definition about : View unit :=
  fun _ => ret (render_template "about.html" no_args).

Definition contact : View unit :=
  fun _ => ret (render_template "contact.html" no_args).

(** *** The decorator stacks, applied bottom-up as Python does.  Each
    pair holds the view table's entry and the value finally bound to
    the function's name in the module. *)

(** lines 149-151: [@login_required] above [@app.route]. *)
Definition add_new_post_stack :=
  let '(registered, f) := route add_new_post in
  (registered, login_required f).

(** lines 168-171 *)
Definition edit_post_stack :=
  let '(registered, f) := route (admin_or_author edit_post) in
  (registered, login_required f).

(** lines 191-193 *)
Definition delete_post_stack := route (admin_or_author delete_post).

(** *** Dispatch: a request names a rule of the URL map and carries the
    inputs of its view. *)
Inductive Call :=
| call_get_all_posts
| call_login (req : Request LoginForm.t)
| call_register (salt : string) (req : Request RegisterForm.t)
| call_logout
| call_show_post (post_id : nat)
| call_new_post (today : string) (req : Request CreatePostForm.t)
| call_edit_post (post_id : nat) (req : Request CreatePostForm.t)
| call_delete (post_id : nat)
| call_about
| call_contact.

Definition dispatch (c : Call) : M Response :=
  match c with
  | call_get_all_posts => fst (route get_all_posts) tt
  | call_login req => fst (route login) req
  | call_register salt req => fst (route register) (salt, req)
  | call_logout => fst (route logout) tt
  | call_show_post post_id => fst (route show_post) post_id
  | call_new_post today req => fst add_new_post_stack (today, req)
  | call_edit_post post_id req => fst edit_post_stack (post_id, req)
  | call_delete post_id => fst delete_post_stack (post_id, tt)
  | call_about => fst (route about) tt
  | call_contact => fst (route contact) tt
  end.

End Views.

(* ================================================================== *)
(** ** Start-up (lines 16-36) *)

(** The process environment after [load_dotenv()]. *)
Definition Environ : Type := string -> option string.

Record Config := mkConfig
  { SECRET_KEY : option string;
    SQLALCHEMY_DATABASE_URI : option string }.

(** [os.getenv(key)]: the value, or [None] when the variable is unset. *)
Definition getenv (environ : Environ) (key : string) : option string :=
  environ key.

(** An engine, named by the URL it was built for. *)
Definition Engine : Type := string.

(** The database layer under the extension, a black box: building the
    engine for a URL (parsing it, finding the dialect and its driver)
    and [db.create_all()] on that engine (connecting, creating the
    tables) each either raise ([Some]) or go through ([None]). *)
Class Database := mkDatabase
  { create_engine : string -> option Exception;
    create_all : Engine -> option Exception }.

Section Startup.

Context {database : Database}.

(** [SQLAlchemy.init_app] of Flask-SQLAlchemy 3 (the version that takes
    [model_class=Base] with a [DeclarativeBase]): with no database URI
    and no binds there is no engine to build and it raises; otherwise
    it builds the engine for the URI. *)
Definition init_app (config : Config) : Exception + Engine :=
  match SQLALCHEMY_DATABASE_URI config with
  | Some uri =>
      match create_engine uri with
      | Some e => inl e
      | None => inr uri
      end
  | None =>
      inl (RuntimeError
             "Either 'SQLALCHEMY_DATABASE_URI' or 'SQLALCHEMY_BINDS' must be set.")
  end.

(** Module-level code up to the first request, [db.create_all()] of
    lines 84-85 included: the configuration the application runs with,
    or the exception that stops the import. *)
Definition startup (environ : Environ) : Exception + Config :=
  let config := mkConfig (getenv environ "SECRET_KEY") None in
  let config := mkConfig (SECRET_KEY config) (getenv environ "DATABASE_URL") in
  match init_app config with
  | inl e => inl e
  | inr engine =>
      match create_all engine with
      | Some e => inl e
      | None => inr config
      end
  end.

End Startup.

(* ================================================================== *)
(** ** Store invariants and reachable states *)

(** The post's [user_id] is the primary key of a stored user. *)
Definition owner_resolves (d : DB) (p : BlogPost.t) : bool :=
  match get_User d (BlogPost.user_id p) with
  | Some _ => true
  | None => false
  end.

Definition no_orphans (d : DB) : bool :=
  forallb (owner_resolves d) (blog_posts d).

Definition unique_emails (d : DB) : Prop :=
  NoDup (map User.email (users d)).

(** The caller of [w] is logged in as the owner of [post]. *)
Definition is_author (w : World) (post : BlogPost.t) : bool :=
  match session w with
  | Some user_id =>
      match get_User (db w) user_id with
      | Some u => User.id u =? BlogPost.user_id post
      | None => false
      end
  | None => false
  end.

Definition initial_world : World := mkWorld empty_db None [].

Section Reachability.

Context {forms : Forms} {security : Security}.

(** One step of the running application: a routed request of the
    current client, a request arriving with another client's session,
    or the removal of a user through the ORM session. *)
Inductive step : World -> World -> Prop :=
| step_request (c : Call) (w : World) :
    step w (snd (dispatch c w))
| step_client (s : option nat) (w : World) :
    step w (mkWorld (db w) s (flashes w))
| step_delete_User (u : User.t) (w : World) (d' : DB) :
    In u (users (db w)) ->
    delete_User User_blog_posts_cascade u (db w) = inr (tt, d') ->
    step w (mkWorld d' (session w) (flashes w)).

Inductive reachable : World -> Prop :=
| reachable_initial : reachable initial_world
| reachable_step (w w' : World) : reachable w -> step w w' -> reachable w'.

End Reachability.

(** A database layer that serves SQLite files and knows no other URL. *)
Definition sqlite_only : Database :=
  mkDatabase
    (fun uri =>
       if prefix "sqlite:///" uri then None
       else Some (ArgumentError "Could not parse SQLAlchemy URL from string"))
    (fun _ => None).


(** A process environment that sets [DATABASE_URL] and nothing else. *)
Definition only_database_url : Environ :=
  fun key => if String.eqb key "DATABASE_URL" then Some "sqlite:///post.db" else None.

(** How one routed request can change the store. *)
Inductive db_change (d d' : DB) : Prop :=
| db_same :
    d' = d -> db_change d d'
| db_new_User (u : User.t) :
    existsb (fun v => String.eqb (User.email v) (User.email u)) (users d) = false ->
    d' = mkDB (users d ++ [u]) (blog_posts d) ->
    db_change d d'
| db_new_BlogPost (p : BlogPost.t) (u : User.t) :
    In u (users d) -> User.id u = BlogPost.user_id p ->
    d' = mkDB (users d) (blog_posts d ++ [p]) ->
    db_change d d'
| db_updated_BlogPost (k : nat) (new : BlogPost.t) (u : User.t) :
    In u (users d) -> User.id u = BlogPost.user_id new ->
    d' = mkDB (users d)
           (map (fun q => if BlogPost.id q =? k then new else q) (blog_posts d)) ->
    db_change d d'
| db_deleted_BlogPost (k : nat) :
    d' = mkDB (users d)
           (filter (fun q => negb (BlogPost.id q =? k)) (blog_posts d)) ->
    db_change d d'.

(* ================================================================== *)
(** ** Test doubles used to run the handlers on concrete inputs *)

(** Forms that ask for a non-empty first field. *)
Definition nonempty (s : string) : bool := negb (String.eqb s "").

Definition demo_forms : Forms :=
  mkForms (fun f => nonempty (LoginForm.email f))
          (fun f => nonempty (RegisterForm.email f))
          (fun f => nonempty (CreatePostForm.title f)).

(** A stand-in for the hash: salt and password side by side. *)
Definition demo_security : Security :=
  mkSecurity (fun salt pw => salt ++ "$" ++ pw)%string
             (fun pwhash pw =>
                match index 0 "$" pwhash with
                | Some i => String.eqb (substring (S i) (String.length pwhash) pwhash) pw
                | None => false
                end).

Definition alice : User.t := User.mk 1 "alice" "a@x.com" "s1$pw1".
Definition bob : User.t := User.mk 2 "bob" "b@x.com" "s2$pw2".
Definition hello : BlogPost.t :=
  BlogPost.mk 1 1 "Hello" "first" "April 05, 2024" "text" "hello.png".

Definition demo_db : DB := mkDB [alice; bob] [hello].

Definition as_alice : World := mkWorld demo_db (Some 1) [].
Definition as_bob : World := mkWorld demo_db (Some 2) [].
Definition as_guest : World := mkWorld demo_db None [].

(** A primitive that verifies nothing, whatever the stored string. *)
Definition rejecting_security : Security :=
  mkSecurity (fun _ pw => pw) (fun _ _ => false).

Definition first_post : CreatePostForm.t :=
  CreatePostForm.mk "Hello" "first" "hello.png" "text".

Definition second_post : CreatePostForm.t :=
  CreatePostForm.mk "Hello again" "second" "again.png" "more text".

(** Alice registers, then publishes her first post. *)
Definition after_register : World :=
  snd (@dispatch demo_forms demo_security
         (call_register "s1" (mkRequest POST (RegisterForm.mk "alice" "a@x.com" "pw1")))
         initial_world).

Definition after_first_post : World :=
  snd (@dispatch demo_forms demo_security
         (call_new_post "April 05, 2024" (mkRequest POST first_post))
         after_register).

(** The demo store with a second post, Bob's. *)
Definition two_posts_db : DB :=
  mkDB [alice; bob]
    [hello;
     BlogPost.mk 2 2 "Hello again" "second" "May 01, 2024" "more text" "again.png"].

(* ================================================================== *)
(** ** Well-formed stores and the changes a routed request can make *)

Definition unique_User_ids (d : DB) : Prop :=
  NoDup (map User.id (users d)).

Definition unique_BlogPost_ids (d : DB) : Prop :=
  NoDup (map BlogPost.id (blog_posts d)).

Definition unique_titles (d : DB) : Prop :=
  NoDup (map BlogPost.title (blog_posts d)).

(** The constraints declared on the two tables: primary keys (lines 42
    and 55) and the UNIQUE columns (lines 44 and 60). *)
Definition wellformed (d : DB) : Prop :=
  unique_User_ids d /\ unique_BlogPost_ids d
  /\ unique_emails d /\ unique_titles d.

(** Every way in which one routed request, sent from the world [w], can
    leave the store, with what the view checked on the way. *)
Inductive routed_change (w : World) (d' : DB) : Prop :=
| change_none :
    d' = db w -> routed_change w d'
| change_register (username email password : string) :
    existsb (fun v => String.eqb (User.email v) email) (users (db w)) = false ->
    d' = mkDB (users (db w)
               ++ [User.mk (next_id (map User.id (users (db w))))
                     username email password])
           (blog_posts (db w)) ->
    routed_change w d'
| change_add_new_post (author : User.t)
    (title subtitle date body img_url : string) :
    current_user w = (inr (Some author), w) ->
    existsb (fun p => String.eqb (BlogPost.title p) title)
      (blog_posts (db w)) = false ->
    d' = mkDB (users (db w))
           (blog_posts (db w)
            ++ [BlogPost.mk (next_id (map BlogPost.id (blog_posts (db w))))
                  (User.id author) title subtitle date body img_url]) ->
    routed_change w d'
| change_edit_post (old : BlogPost.t) (title subtitle body img_url : string) :
    get_BlogPost (db w) (BlogPost.id old) = Some old ->
    is_author w old = true ->
    negb (String.eqb (BlogPost.title old) title)
    && existsb (fun q => negb (BlogPost.id q =? BlogPost.id old)
                         && String.eqb (BlogPost.title q) title)
         (blog_posts (db w)) = false ->
    d' = mkDB (users (db w))
           (map (fun q => if BlogPost.id q =? BlogPost.id old
                          then BlogPost.mk (BlogPost.id old) (BlogPost.user_id old)
                                 title subtitle (BlogPost.date old) body img_url
                          else q)
              (blog_posts (db w))) ->
    routed_change w d'
| change_delete_post (old : BlogPost.t) :
    get_BlogPost (db w) (BlogPost.id old) = Some old ->
    is_author w old = true ->
    d' = mkDB (users (db w))
           (filter (fun q => negb (BlogPost.id q =? BlogPost.id old))
              (blog_posts (db w))) ->
    routed_change w d'.

(* ================================================================== *)
(** * Properties *)

Unset Implicit Arguments.

(** Unfolds the monad's plumbing so that a handler becomes a nest of
    matches over the store and the session. *)
Ltac run_monad :=
  cbv beta delta [bind ret abort raise get_db get_session put_db put_session
                  flash commit execute get_or_404 load_user current_user
                  login_user logout_user unauthorized] iota zeta.

(** ** The storage layer *)

Lemma get_User_id (d : DB) (ident : nat) (u : User.t) :
  get_User d ident = Some u -> User.id u = ident.
Proof.
  unfold get_User; intros Hfind.
  apply find_some in Hfind as [_ Heq].
  now apply Nat.eqb_eq.
Qed.

Lemma get_User_In (d : DB) (ident : nat) (u : User.t) :
  get_User d ident = Some u -> In u (users d).
Proof.
  unfold get_User; intros Hfind.
  now apply find_some in Hfind.
Qed.

Lemma get_BlogPost_id (d : DB) (ident : nat) (p : BlogPost.t) :
  get_BlogPost d ident = Some p -> BlogPost.id p = ident.
Proof.
  unfold get_BlogPost; intros Hfind.
  apply find_some in Hfind as [_ Heq].
  now apply Nat.eqb_eq.
Qed.

Lemma get_BlogPost_In (d : DB) (ident : nat) (p : BlogPost.t) :
  get_BlogPost d ident = Some p -> In p (blog_posts d).
Proof.
  unfold get_BlogPost; intros Hfind.
  now apply find_some in Hfind.
Qed.

(** The current user of a world, as the handlers see it. *)
Lemma current_user_run (w : World) :
  current_user w =
  (inr match session w with
       | Some user_id => get_User (db w) user_id
       | None => None
       end, w).
Proof.
  run_monad. now destruct (session w).
Qed.

(** ** Selecting users by email *)

Lemma select_User_where_email_In (d : DB) (e : string) (u : User.t) :
  In u (select_User_where_email d e) <-> In u (users d) /\ User.email u = e.
Proof.
  unfold select_User_where_email. rewrite filter_In.
  now rewrite String.eqb_eq.
Qed.

Lemma select_User_where_email_none (d : DB) (e : string) :
  (forall u, In u (users d) -> User.email u <> e) ->
  select_User_where_email d e = [].
Proof.
  intros Hnone.
  destruct (select_User_where_email d e) as [|u rows] eqn:Hsel; [reflexivity|].
  assert (Hin : In u (select_User_where_email d e)) by (rewrite Hsel; now left).
  apply select_User_where_email_In in Hin as [Hin Heq].
  now apply Hnone in Hin.
Qed.

Lemma select_User_where_email_some (d : DB) (e : string) (u : User.t) :
  In u (users d) -> User.email u = e ->
  exists v rows, select_User_where_email d e = v :: rows.
Proof.
  intros Hin Heq.
  destruct (select_User_where_email d e) as [|v rows] eqn:Hsel.
  - assert (Hu : In u (select_User_where_email d e))
      by now apply select_User_where_email_In.
    rewrite Hsel in Hu. destruct Hu.
  - now exists v, rows.
Qed.

Lemma filter_none {A : Type} (f : A -> bool) (l : list A) :
  (forall x, In x l -> f x = false) -> filter f l = [].
Proof.
  induction l as [|a l IH]; intros Hf; [reflexivity|].
  cbn [filter]. rewrite (Hf a (or_introl eq_refl)).
  apply IH. intros x Hx. apply Hf. now right.
Qed.

Lemma filter_email_unique (l : list User.t) (u : User.t) :
  NoDup (map User.email l) -> In u l ->
  filter (fun v => String.eqb (User.email v) (User.email u)) l = [u].
Proof.
  induction l as [|v l IH]; intros Hnodup Hin; [destruct Hin|].
  cbn [map] in Hnodup. apply NoDup_cons_iff in Hnodup as [Hfresh Hnodup].
  cbn [filter]. destruct Hin as [->|Hin].
  - rewrite String.eqb_refl. f_equal.
    apply filter_none.
    intros x Hx. apply String.eqb_neq. intros Heq.
    apply Hfresh. rewrite <- Heq. now apply in_map.
  - destruct (String.eqb (User.email v) (User.email u)) eqn:Heq.
    + apply String.eqb_eq in Heq. exfalso. apply Hfresh.
      rewrite Heq. now apply in_map.
    + now apply IH.
Qed.

Lemma select_User_where_email_unique (d : DB) (u : User.t) :
  unique_emails d -> In u (users d) ->
  select_User_where_email d (User.email u) = [u].
Proof. apply filter_email_unique. Qed.

Lemma existsb_email_false (d : DB) (e : string) :
  select_User_where_email d e = [] ->
  existsb (fun u => String.eqb (User.email u) e) (users d) = false.
Proof.
  intros Hsel. apply not_true_is_false. intros Hex.
  apply existsb_exists in Hex as [u [Hin Heq]].
  assert (Hu : In u (select_User_where_email d e)).
  { apply select_User_where_email_In. split; [exact Hin|].
    now apply String.eqb_eq. }
  rewrite Hsel in Hu. destruct Hu.
Qed.

(** ** Updating a row in place *)

Lemma find_update (ps : list BlogPost.t) (k i : nat) (new : BlogPost.t) :
  BlogPost.id new = k ->
  find (fun p => BlogPost.id p =? i)
    (map (fun q => if BlogPost.id q =? k then new else q) ps)
  = if i =? k
    then match find (fun p => BlogPost.id p =? k) ps with
         | Some _ => Some new
         | None => None
         end
    else find (fun p => BlogPost.id p =? i) ps.
Proof.
  intros Hnew. induction ps as [|a ps IH]; cbn [map find].
  - now destruct (i =? k).
  - destruct (BlogPost.id a =? k) eqn:Hak; destruct (i =? k) eqn:Hik;
      rewrite ?Nat.eqb_eq, ?Nat.eqb_neq in *; subst.
    + now rewrite Nat.eqb_refl.
    + rewrite (proj2 (Nat.eqb_neq _ _)) by congruence.
      rewrite IH. rewrite (proj2 (Nat.eqb_neq (BlogPost.id a) i)) by congruence.
      reflexivity.
    + rewrite (proj2 (Nat.eqb_neq _ _) Hak). exact IH.
    + rewrite IH. reflexivity.
Qed.

Lemma map_id_update (ps : list BlogPost.t) (k : nat) (new : BlogPost.t) :
  BlogPost.id new = k ->
  map BlogPost.id (map (fun q => if BlogPost.id q =? k then new else q) ps)
  = map BlogPost.id ps.
Proof.
  intros Hnew. rewrite map_map. apply map_ext_in. intros q _.
  destruct (BlogPost.id q =? k) eqn:Hq; [|reflexivity].
  apply Nat.eqb_eq in Hq. congruence.
Qed.

(** ** Owners resolve *)

Lemma owner_resolves_spec (d : DB) (p : BlogPost.t) :
  owner_resolves d p = true <->
  exists u, In u (users d) /\ User.id u = BlogPost.user_id p.
Proof.
  unfold owner_resolves. split.
  - destruct (get_User d (BlogPost.user_id p)) as [u|] eqn:Hu; [|discriminate].
    intros _. exists u. split.
    + now apply get_User_In in Hu.
    + now apply get_User_id in Hu.
  - intros (u & Hin & Hid).
    destruct (get_User d (BlogPost.user_id p)) eqn:Hu; [reflexivity|].
    unfold get_User in Hu. apply (find_none _ _ Hu) in Hin.
    apply Nat.eqb_neq in Hin. contradiction.
Qed.

Lemma no_orphans_spec (d : DB) :
  no_orphans d = true <->
  forall p, In p (blog_posts d) ->
            exists u, In u (users d) /\ User.id u = BlogPost.user_id p.
Proof.
  unfold no_orphans. rewrite forallb_forall.
  split; intros H p Hp; apply owner_resolves_spec; now apply H.
Qed.

Lemma db_change_no_orphans (d d' : DB) :
  db_change d d' -> no_orphans d = true -> no_orphans d' = true.
Proof.
  intros Hchange Hinv. rewrite no_orphans_spec in *.
  destruct Hchange as [->|u _ ->|p u Hu Hid ->|k new u Hu Hid ->|k ->];
    cbn [users blog_posts].
  - exact Hinv.
  - intros p Hp. destruct (Hinv p Hp) as (v & Hv & Hvid).
    exists v. split; [|exact Hvid]. apply in_or_app. now left.
  - intros q Hq. apply in_app_or in Hq as [Hq|[<-|[]]].
    + now apply Hinv.
    + now exists u.
  - intros q Hq. apply in_map_iff in Hq as (q0 & Hq0 & Hin).
    destruct (BlogPost.id q0 =? k).
    + subst q. now exists u.
    + subst q. now apply Hinv.
  - intros q Hq. apply filter_In in Hq as [Hq _]. now apply Hinv.
Qed.

Lemma delete_User_cascades (u : User.t) (d : DB) :
  delete_User User_blog_posts_cascade u d
  = inr (tt, mkDB (filter (fun v => negb (User.id v =? User.id u)) (users d))
               (filter (fun p => negb (BlogPost.user_id p =? User.id u))
                  (blog_posts d))).
Proof. reflexivity. Qed.

Lemma delete_User_no_orphans (u : User.t) (d d' : DB) :
  delete_User User_blog_posts_cascade u d = inr (tt, d') ->
  no_orphans d = true -> no_orphans d' = true.
Proof.
  rewrite delete_User_cascades. intros [= <-] Hinv.
  rewrite no_orphans_spec in *. cbn [users blog_posts].
  intros p Hp. apply filter_In in Hp as [Hp Hkeep].
  destruct (Hinv p Hp) as (v & Hv & Hvid).
  exists v. split; [|exact Hvid].
  apply filter_In. split; [exact Hv|]. now rewrite Hvid.
Qed.

(** ** Emails stay unique *)

Lemma NoDup_snoc {A : Type} (l : list A) (a : A) :
  NoDup l -> ~ In a l -> NoDup (l ++ [a]).
Proof.
  induction l as [|x l IH]; intros Hnodup Hfresh; cbn [app].
  - constructor; [intros []|constructor].
  - apply NoDup_cons_iff in Hnodup as [Hx Hnodup].
    constructor.
    + intros Hin. apply in_app_or in Hin as [Hin|[<-|[]]].
      * contradiction.
      * apply Hfresh. now left.
    + apply IH; [exact Hnodup|]. intros Hin. apply Hfresh. now right.
Qed.

Lemma NoDup_map_filter {A B : Type} (f : A -> B) (g : A -> bool) (l : list A) :
  NoDup (map f l) -> NoDup (map f (filter g l)).
Proof.
  induction l as [|x l IH]; intros Hnodup; [constructor|].
  cbn [map] in Hnodup. apply NoDup_cons_iff in Hnodup as [Hx Hnodup].
  cbn [filter]. destruct (g x); [|now apply IH].
  cbn [map]. constructor; [|now apply IH].
  intros Hin. apply Hx.
  apply in_map_iff in Hin as (y & Hy & Hin).
  apply filter_In in Hin as [Hin _].
  rewrite <- Hy. now apply in_map.
Qed.

Lemma db_change_unique_emails (d d' : DB) :
  db_change d d' -> unique_emails d -> unique_emails d'.
Proof.
  unfold unique_emails.
  intros [->|u Hfresh ->|p u _ _ ->|k new u _ _ ->|k ->] Hinv;
    cbn [users]; try exact Hinv.
  rewrite map_app. cbn [map]. apply NoDup_snoc; [exact Hinv|].
  intros Hin. apply in_map_iff in Hin as (v & Hv & Hin).
  assert (Hex : existsb (fun v => String.eqb (User.email v) (User.email u))
                  (users d) = true).
  { apply existsb_exists. exists v. split; [exact Hin|]. now apply String.eqb_eq. }
  rewrite Hex in Hfresh. discriminate.
Qed.

(** ** The comparison with the literal 1 *)

Lemma py_ne_user_int (u : User.t) (n : Z) : py_ne (PyUser u) (PyInt n) = true.
Proof. reflexivity. Qed.

Lemma py_ne_anonymous_int (n : Z) : py_ne PyAnonymous (PyInt n) = true.
Proof. reflexivity. Qed.

(** ** The access gate *)

Lemma admin_or_author_run {A : Type} (f : View (nat * A)) (post_id : nat)
  (args : A) (w : World) (post : BlogPost.t) :
  get_BlogPost (db w) post_id = Some post ->
  admin_or_author f (post_id, args) w =
  if is_author w post then f (post_id, args) w
  else (inl (HTTPException 403), w).
Proof.
  intros Hpost.
  unfold admin_or_author, is_author. run_monad.
  rewrite Hpost.
  destruct (session w) as [user_id|]; [|reflexivity].
  destruct (get_User (db w) user_id) as [u|]; [|reflexivity].
  rewrite py_ne_user_int. cbn [andb].
  now destruct (User.id u =? BlogPost.user_id post).
Qed.

Lemma admin_or_author_404 {A : Type} (f : View (nat * A)) (post_id : nat)
  (args : A) (w : World) :
  get_BlogPost (db w) post_id = None ->
  admin_or_author f (post_id, args) w = (inl (miss post_id), w).
Proof.
  intros Hpost. unfold admin_or_author, miss. run_monad. rewrite Hpost.
  now destruct (out_of_range post_id).
Qed.

Section Handlers.

Context {forms : Forms} {security : Security}.

(** The bodies behind the gate never answer 403 themselves. *)
Lemma edit_post_not_403 (post_id : nat) (req : Request CreatePostForm.t)
  (w : World) : fst (edit_post (post_id, req) w) <> inl (HTTPException 403).
Proof.
  unfold edit_post, update_BlogPost. run_monad.
  destruct (get_BlogPost (db w) post_id) as [post|];
    [|destruct (out_of_range post_id); discriminate].
  destruct (get_User (db w) (BlogPost.user_id post)); [|discriminate].
  destruct (validate_on_submit validate_CreatePostForm req); [|discriminate].
  destruct (session w) as [user_id|]; [|discriminate].
  destruct (get_User (db w) user_id); [|discriminate].
  match goal with |- context [if ?b then _ else _] => destruct b end;
    discriminate.
Qed.

Lemma delete_post_not_403 (post_id : nat) (w : World) :
  fst (delete_post (post_id, tt) w) <> inl (HTTPException 403).
Proof.
  unfold delete_post, delete_BlogPost. run_monad.
  destruct (get_BlogPost (db w) post_id);
    [|destruct (out_of_range post_id)]; discriminate.
Qed.

(** C1.  For a stored post, the routed edit and delete views run their
    bodies exactly when the caller's session resolves to a user whose
    id is the post's [user_id]; every other caller, logged in or not,
    gets 403 and the world is left as it was.  The comparison of the
    current user with the literal 1 is true for every caller, so it
    lets nobody through: a logged-in user with id 1 who does not own
    the post is refused like anybody else. *)
Theorem access_gate_owner_only (post_id : nat) (post : BlogPost.t)
  (req : Request CreatePostForm.t) (w : World) :
  get_BlogPost (db w) post_id = Some post ->
  (is_author w post = true ->
     dispatch (call_edit_post post_id req) w = edit_post (post_id, req) w
     /\ dispatch (call_delete post_id) w = delete_post (post_id, tt) w
     /\ fst (dispatch (call_edit_post post_id req) w) <> inl (HTTPException 403)
     /\ fst (dispatch (call_delete post_id) w) <> inl (HTTPException 403))
  /\ (is_author w post = false ->
        dispatch (call_edit_post post_id req) w = (inl (HTTPException 403), w)
        /\ dispatch (call_delete post_id) w = (inl (HTTPException 403), w))
  /\ (session w = None -> is_author w post = false)
  /\ (forall u : User.t,
        session w = Some (User.id u) ->
        get_User (db w) (User.id u) = Some u ->
        User.id u <> BlogPost.user_id post ->
        is_author w post = false)
  /\ (forall cu : option User.t,
        py_ne (match cu with Some u => PyUser u | None => PyAnonymous end)
          (PyInt 1) = true).
Proof.
  intros Hpost.
  assert (Hedit : dispatch (call_edit_post post_id req) w =
                  if is_author w post then edit_post (post_id, req) w
                  else (inl (HTTPException 403), w))
    by (cbn [dispatch edit_post_stack route fst];
        now apply admin_or_author_run).
  assert (Hdel : dispatch (call_delete post_id) w =
                 if is_author w post then delete_post (post_id, tt) w
                 else (inl (HTTPException 403), w))
    by (cbn [dispatch delete_post_stack route fst];
        now apply admin_or_author_run).
  split; [|split; [|split; [|split]]].
  - intros Hauthor. rewrite Hedit, Hdel, Hauthor.
    repeat split; [apply edit_post_not_403|apply delete_post_not_403].
  - intros Hauthor. rewrite Hedit, Hdel, Hauthor. now split.
  - intros Hs. unfold is_author. now rewrite Hs.
  - intros u Hs Hu Hneq. unfold is_author. rewrite Hs, Hu.
    now apply Nat.eqb_neq.
  - intros [u|]; reflexivity.
Qed.


Lemma show_post_miss (post_id : nat) (w : World) :
  get_BlogPost (db w) post_id = None ->
  dispatch (call_show_post post_id) w = (inl (miss post_id), w).
Proof.
  intros Hpost. cbn [dispatch route fst]. unfold show_post, miss. run_monad.
  rewrite Hpost. now destruct (out_of_range post_id).
Qed.


(** C2.  What the routed create-post view does for an anonymous caller:
    the view table holds the undecorated [add_new_post], so the form is
    validated first; a rejected form is rendered back, an accepted one
    reaches the ORM, which raises.  Either way the world is unchanged
    and the answer is not the login manager's.  The value bound to the
    module name, which no rule points to, is the one that is gated. *)
Theorem anonymous_new_post_reaches_the_body (today : string)
  (req : Request CreatePostForm.t) (d : DB) (fl : list (string * string)) :
  let w := mkWorld d None fl in
  dispatch (call_new_post today req) w
  = (if validate_on_submit validate_CreatePostForm req
     then inl (Unhandled (AttributeError "_sa_instance_state"))
     else inr (render_template "make-post.html" (make_post_args (form req) false)),
     w)
  /\ dispatch (call_new_post today req) w <> unauthorized w
  /\ snd add_new_post_stack (today, req) w = unauthorized w.
Proof.
  intros w.
  assert (Hrun : dispatch (call_new_post today req) w
    = (if validate_on_submit validate_CreatePostForm req
       then inl (Unhandled (AttributeError "_sa_instance_state"))
       else inr (render_template "make-post.html"
                   (make_post_args (form req) false)), w)).
  { cbn [dispatch add_new_post_stack route fst]. unfold add_new_post.
    destruct (validate_on_submit validate_CreatePostForm req); reflexivity. }
  split; [exact Hrun|split].
  - rewrite Hrun. unfold unauthorized. run_monad.
    destruct (validate_on_submit validate_CreatePostForm req); discriminate.
  - reflexivity.
Qed.

(** C3.  When a stored user already has the submitted email, a
    registration that passes form validation is answered with the
    'Already Logged in' notice and a redirect to the login page; and
    whether the form validates or not, the users table, the posts and
    the session are what they were: no second user is created. *)
Theorem register_duplicate_email (salt : string) (req : Request RegisterForm.t)
  (w : World) (u : User.t) :
  In u (users (db w)) ->
  User.email u = RegisterForm.email (form req) ->
  (validate_on_submit validate_RegisterForm req = true ->
     dispatch (call_register salt req) w
     = (inr (redirect (url_for "login" None)),
        mkWorld (db w) (session w)
          (flashes w ++ [("danger", "Already Logged in")])))
  /\ db (snd (dispatch (call_register salt req) w)) = db w
  /\ session (snd (dispatch (call_register salt req) w)) = session w.
Proof.
  intros Hin Hemail.
  destruct (select_User_where_email_some (db w) _ u Hin Hemail) as (v & rows & Hsel).
  cbn [dispatch route fst]. unfold register.
  destruct (validate_on_submit validate_RegisterForm req);
    run_monad; rewrite ?Hsel; cbn [scalar hd_error];
    repeat split; intros; try reflexivity; discriminate.
Qed.

(** C7.  When no stored user has the submitted email, a login that
    passes form validation is answered with the "Email doesn't exist !"
    notice and a redirect to the registration page; in every case the
    session slot and the store are what they were. *)
Theorem login_unknown_email (req : Request LoginForm.t) (w : World) :
  (forall u, In u (users (db w)) -> User.email u <> LoginForm.email (form req)) ->
  (validate_on_submit validate_LoginForm req = true ->
     dispatch (call_login req) w
     = (inr (redirect (url_for "register" None)),
        mkWorld (db w) (session w)
          (flashes w ++ [("danger", "Email doesn't exist !")])))
  /\ session (snd (dispatch (call_login req) w)) = session w
  /\ db (snd (dispatch (call_login req) w)) = db w.
Proof.
  intros Hnone.
  apply select_User_where_email_none in Hnone.
  cbn [dispatch route fst]. unfold login.
  destruct (validate_on_submit validate_LoginForm req);
    run_monad; rewrite ?Hnone; cbn [scalar_one_or_none];
    repeat split; intros; try reflexivity; discriminate.
Qed.
(** C4.  For a stored user (emails being unique in the table) and a
    validated login form carrying that user's email, the answer depends
    on the submitted password only through [check_password_hash] applied
    to the stored hash: when it fails, the 'Incorrect Password!' notice
    is flashed, the login form is rendered again and the session slot is
    what it was; when it succeeds the session is set to the user.  This
    holds for every hashing primitive, so no plaintext comparison takes
    part.  What registration stores in the password column is the
    output of [generate_password_hash]. *)
Theorem login_wrong_password (req : Request LoginForm.t) (w : World)
  (u : User.t) :
  unique_emails (db w) ->
  In u (users (db w)) ->
  User.email u = LoginForm.email (form req) ->
  validate_on_submit validate_LoginForm req = true ->
  (check_password_hash (User.password u) (LoginForm.password (form req)) = false ->
     dispatch (call_login req) w
     = (inr (render_template "login.html" (login_args (form req))),
        mkWorld (db w) (session w)
          (flashes w ++ [("danger", "Incorrect Password!")])))
  /\ (check_password_hash (User.password u) (LoginForm.password (form req)) = true ->
       dispatch (call_login req) w
       = (inr (redirect (url_for "get_all_posts" None)),
          mkWorld (db w) (Some (User.id u)) (flashes w)))
  /\ (forall (salt : string) (rreq : Request RegisterForm.t) (w0 : World),
        validate_on_submit validate_RegisterForm rreq = true ->
        select_User_where_email (db w0) (RegisterForm.email (form rreq)) = [] ->
        let new_user :=
          User.mk (next_id (map User.id (users (db w0))))
            (RegisterForm.username (form rreq)) (RegisterForm.email (form rreq))
            (generate_password_hash salt (RegisterForm.password (form rreq))) in
        dispatch (call_register salt rreq) w0
        = (inr (redirect (url_for "get_all_posts" None)),
           mkWorld (mkDB (users (db w0) ++ [new_user]) (blog_posts (db w0)))
             (Some (User.id new_user)) (flashes w0))).
Proof.
  intros Huniq Hin Hemail Hvalid.
  pose proof (select_User_where_email_unique (db w) u Huniq Hin) as Hsel.
  rewrite Hemail in Hsel.
  split; [|split].
  - intros Hcheck. cbn [dispatch route fst]. unfold login.
    rewrite Hvalid. run_monad. rewrite Hsel. cbn [scalar_one_or_none].
    now rewrite Hcheck.
  - intros Hcheck. cbn [dispatch route fst]. unfold login.
    rewrite Hvalid. run_monad. rewrite Hsel. cbn [scalar_one_or_none].
    now rewrite Hcheck.
  - intros salt rreq w0 Hv Hnone new_user.
    cbn [dispatch route fst]. unfold register, insert_User.
    rewrite Hv. run_monad. rewrite Hnone. cbn [scalar hd_error].
    now rewrite (existsb_email_false _ _ Hnone).
Qed.

(** C8.  When a stored post already has the submitted title, a
    validated create-post submission by a logged-in caller stops at the
    commit with the store's uniqueness violation on [blog_posts.title];
    the store, the session and the flashes are untouched. *)
Theorem new_post_duplicate_title (today : string)
  (req : Request CreatePostForm.t) (w : World) (u : User.t) (p : BlogPost.t) :
  current_user w = (inr (Some u), w) ->
  In p (blog_posts (db w)) ->
  BlogPost.title p = CreatePostForm.title (form req) ->
  validate_on_submit validate_CreatePostForm req = true ->
  dispatch (call_new_post today req) w
  = (inl (Unhandled (IntegrityError "blog_posts.title")), w).
Proof.
  intros Hcu Hin Htitle Hvalid.
  assert (Hdup : existsb (fun q => String.eqb (BlogPost.title q)
                                   (CreatePostForm.title (form req)))
                   (blog_posts (db w)) = true).
  { apply existsb_exists. exists p. split; [exact Hin|].
    now apply String.eqb_eq. }
  cbn [dispatch add_new_post_stack route fst]. unfold add_new_post.
  rewrite Hvalid.
  unfold bind at 1. rewrite Hcu.
  unfold insert_BlogPost. run_monad. now rewrite Hdup.
Qed.

(** What a redirecting run of the undecorated [edit_post] went through. *)
Lemma edit_post_success_inv (post_id : nat) (req : Request CreatePostForm.t)
  (w w' : World) (loc : Url) :
  edit_post (post_id, req) w = (inr (redirect loc), w') ->
  exists post u,
    get_BlogPost (db w) post_id = Some post
    /\ current_user w = (inr (Some u), w)
    /\ validate_on_submit validate_CreatePostForm req = true
    /\ loc = url_for "show_post" (Some (BlogPost.id post))
    /\ update_BlogPost post
         (BlogPost.mk (BlogPost.id post) (User.id u)
            (CreatePostForm.title (form req)) (CreatePostForm.subtitle (form req))
            (BlogPost.date post)
            (CreatePostForm.body (form req)) (CreatePostForm.img_url (form req)))
         (db w) = inr (tt, db w')
    /\ session w' = session w /\ flashes w' = flashes w.
Proof.
  unfold edit_post, validate_on_submit. run_monad.
  destruct (get_BlogPost (db w) post_id) as [post|];
    [|destruct (out_of_range post_id); discriminate].
  destruct (get_User (db w) (BlogPost.user_id post)); [|discriminate].
  destruct (method req); [discriminate|].
  destruct (validate_CreatePostForm (form req)); [|discriminate].
  destruct (session w) as [user_id|] eqn:Hs; [|discriminate].
  destruct (get_User (db w) user_id) as [u|] eqn:Hu; [|discriminate].
  match goal with
  | |- context [update_BlogPost ?o ?n ?d] =>
      destruct (update_BlogPost o n d) as [e|[[] d']] eqn:Hupd
  end; [discriminate|].
  intros Hrun. injection Hrun as <- <-. cbn [db session flashes].
  exists post, u.
  repeat split; try reflexivity; [exact Hupd|exact Hs].
Qed.

(** C5.  For a stored post: a routed edit that ends in the redirect to
    the post page came from the post's owner and is a run of the
    undecorated [edit_post]; every such run, whoever the logged-in
    submitter [u] is, leaves under the same id a row whose title,
    subtitle, image and body are the submitted ones, whose [user_id] is
    [u]'s id and whose [id] and [date] are the old ones (the old id
    being the id asked for), and changes no
    other row, no user, and neither session nor flashes; and a
    validated submission by the owner whose title meets no other row's
    does end that way. *)
Theorem edit_post_effect (post_id : nat) (post : BlogPost.t)
  (req : Request CreatePostForm.t) (w : World) :
  get_BlogPost (db w) post_id = Some post ->
  (forall loc w',
     dispatch (call_edit_post post_id req) w = (inr (redirect loc), w') ->
     is_author w post = true
     /\ edit_post (post_id, req) w = (inr (redirect loc), w'))
  /\ (forall loc w',
       edit_post (post_id, req) w = (inr (redirect loc), w') ->
       exists u,
         current_user w = (inr (Some u), w)
         /\ loc = url_for "show_post" (Some post_id)
         /\ get_BlogPost (db w') post_id
            = Some (BlogPost.mk post_id (User.id u)
                      (CreatePostForm.title (form req))
                      (CreatePostForm.subtitle (form req))
                      (BlogPost.date post)
                      (CreatePostForm.body (form req))
                      (CreatePostForm.img_url (form req)))
         /\ (forall i, i <> post_id ->
               get_BlogPost (db w') i = get_BlogPost (db w) i)
         /\ map BlogPost.id (blog_posts (db w')) = map BlogPost.id (blog_posts (db w))
         /\ users (db w') = users (db w)
         /\ session w' = session w
         /\ flashes w' = flashes w)
  /\ (forall u,
       current_user w = (inr (Some u), w) ->
       is_author w post = true ->
       validate_on_submit validate_CreatePostForm req = true ->
       existsb (fun q => negb (BlogPost.id q =? post_id)
                         && String.eqb (BlogPost.title q)
                              (CreatePostForm.title (form req)))
         (blog_posts (db w)) = false ->
       exists w',
         dispatch (call_edit_post post_id req) w
         = (inr (redirect (url_for "show_post" (Some post_id))), w')
         /\ BlogPost.user_id post = User.id u)
  /\ BlogPost.id post = post_id.
Proof.
  intros Hpost.
  pose proof (get_BlogPost_id _ _ _ Hpost) as Hid.
  assert (Hgate : dispatch (call_edit_post post_id req) w =
                  if is_author w post then edit_post (post_id, req) w
                  else (inl (HTTPException 403), w))
    by (cbn [dispatch edit_post_stack route fst];
        now apply admin_or_author_run).
  split; [|split; [|split; [|exact Hid]]].
  - intros loc w' Hrun. rewrite Hgate in Hrun.
    destruct (is_author w post); [now split|discriminate].
  - intros loc w' Hrun.
    apply edit_post_success_inv in Hrun
      as (post' & u & Hpost' & Hcu & _ & Hloc & Hupd & Hs & Hf).
    rewrite Hpost in Hpost'. injection Hpost' as <-.
    rewrite Hid in *.
    unfold update_BlogPost in Hupd.
    match type of Hupd with
    | (if ?b then _ else _) = _ => destruct b; [discriminate|]
    end.
    injection Hupd as Hdb.
    exists u. unfold get_BlogPost. rewrite <- Hdb. cbn [blog_posts users].
    rewrite Hid.
    repeat split; try assumption.
    + rewrite find_update by reflexivity. rewrite Nat.eqb_refl.
      unfold get_BlogPost in Hpost. now rewrite Hpost.
    + intros i Hi. rewrite find_update by reflexivity.
      now rewrite (proj2 (Nat.eqb_neq _ _) Hi).
    + now apply map_id_update.
  - intros u Hcu Hauthor Hvalid Hfree.
    rewrite Hgate, Hauthor.
    rewrite current_user_run in Hcu. unfold is_author in Hauthor.
    destruct (session w) as [user_id|] eqn:Hs; [|discriminate].
    destruct (get_User (db w) user_id) as [u'|] eqn:Hu; [|discriminate].
    assert (u' = u) as -> by congruence. clear Hcu.
    apply Nat.eqb_eq in Hauthor.
    pose proof (get_User_id _ _ _ Hu) as Huid.
    unfold edit_post, update_BlogPost. run_monad.
    rewrite Hpost, <- Hauthor, Huid, Hu, Hvalid, Hs, Hu.
    cbn [BlogPost.title BlogPost.id].
    assert (Hreq : form req =
      match method req with
      | GET => CreatePostForm.mk (BlogPost.title post) (BlogPost.subtitle post)
                 (BlogPost.img_url post) (BlogPost.body post)
      | POST => form req
      end).
    { unfold validate_on_submit in Hvalid. destruct (method req);
        [discriminate|reflexivity]. }
    rewrite <- Hreq, Hid, Hfree, andb_false_r.
    eexists. split; reflexivity.
Qed.

(** ** What each view does to the store *)

Ltac case_on x := destruct x eqn:?; cbv beta iota zeta; cbn [fst snd db].

Lemma register_db_change (salt : string) (req : Request RegisterForm.t)
  (w : World) : db_change (db w) (db (snd (register (salt, req) w))).
Proof.
  unfold register, insert_User.
  case_on (validate_on_submit validate_RegisterForm req); run_monad;
    [|now constructor 1].
  case_on (scalar (select_User_where_email (db w)
                     (RegisterForm.email (form req)))); [now constructor 1|].
  match goal with |- context [existsb ?f ?l] => case_on (existsb f l) end;
    [now constructor 1|].
  eapply db_new_User; [|reflexivity]. assumption.
Qed.

Lemma login_db_change (req : Request LoginForm.t) (w : World) :
  db_change (db w) (db (snd (login req w))).
Proof.
  unfold login.
  case_on (validate_on_submit validate_LoginForm req); run_monad;
    [|now constructor 1].
  case_on (scalar_one_or_none
             (select_User_where_email (db w) (LoginForm.email (form req))));
    [now constructor 1|].
  match goal with |- context [match ?o with Some _ => _ | None => _ end] =>
    case_on o end; [|now constructor 1].
  match goal with |- context [check_password_hash ?h ?p] =>
    case_on (check_password_hash h p) end; now constructor 1.
Qed.

Lemma add_new_post_db_change (today : string) (req : Request CreatePostForm.t)
  (w : World) : db_change (db w) (db (snd (add_new_post (today, req) w))).
Proof.
  unfold add_new_post, insert_BlogPost.
  case_on (validate_on_submit validate_CreatePostForm req); run_monad;
    [|now constructor 1].
  case_on (session w); [|now constructor 1].
  match goal with |- context [get_User ?d ?i] => case_on (get_User d i) end;
    [|now constructor 1].
  match goal with |- context [existsb ?f ?l] => case_on (existsb f l) end;
    [now constructor 1|].
  eapply db_new_BlogPost; [| |reflexivity].
  - eapply get_User_In; eassumption.
  - reflexivity.
Qed.

Lemma edit_post_db_change (post_id : nat) (req : Request CreatePostForm.t)
  (w : World) : db_change (db w) (db (snd (edit_post (post_id, req) w))).
Proof.
  unfold edit_post, update_BlogPost. run_monad.
  case_on (get_BlogPost (db w) post_id);
    [|destruct (out_of_range post_id); now constructor 1].
  match goal with |- context [get_User ?d ?i] => case_on (get_User d i) end;
    [|now constructor 1].
  case_on (validate_on_submit validate_CreatePostForm req); [|now constructor 1].
  case_on (session w); [|now constructor 1].
  match goal with |- context [get_User ?d ?i] => case_on (get_User d i) end;
    [|now constructor 1].
  match goal with |- context [if ?b then _ else _] => case_on b end;
    [now constructor 1|].
  eapply db_updated_BlogPost; [| |reflexivity].
  - eapply get_User_In; eassumption.
  - reflexivity.
Qed.

Lemma delete_post_db_change (post_id : nat) (w : World) :
  db_change (db w) (db (snd (delete_post (post_id, tt) w))).
Proof.
  unfold delete_post, delete_BlogPost. run_monad.
  case_on (get_BlogPost (db w) post_id);
    [|destruct (out_of_range post_id); now constructor 1].
  eapply db_deleted_BlogPost. reflexivity.
Qed.

Lemma admin_or_author_db_change {A : Type} (f : View (nat * A))
  (post_id : nat) (args : A) (w : World) :
  db_change (db w) (db (snd (f (post_id, args) w))) ->
  db_change (db w) (db (snd (admin_or_author f (post_id, args) w))).
Proof.
  intros Hf.
  destruct (get_BlogPost (db w) post_id) as [post|] eqn:Hpost.
  - rewrite (admin_or_author_run f post_id args w post Hpost).
    destruct (is_author w post); [exact Hf|now constructor 1].
  - rewrite (admin_or_author_404 f post_id args w Hpost). now constructor 1.
Qed.

Lemma dispatch_db_change (c : Call) (w : World) :
  db_change (db w) (db (snd (dispatch c w))).
Proof.
  destruct c; cbn [dispatch add_new_post_stack edit_post_stack
                     delete_post_stack route fst].
  - unfold get_all_posts. run_monad. destruct (session w); now constructor 1.
  - apply login_db_change.
  - apply register_db_change.
  - now constructor 1.
  - unfold show_post. run_monad.
    destruct (get_BlogPost (db w) post_id);
      [|destruct (out_of_range post_id)]; now constructor 1.
  - apply add_new_post_db_change.
  - apply admin_or_author_db_change, edit_post_db_change.
  - apply admin_or_author_db_change, delete_post_db_change.
  - now constructor 1.
  - now constructor 1.
Qed.

Lemma step_no_orphans (w w' : World) :
  step w w' -> no_orphans (db w) = true -> no_orphans (db w') = true.
Proof.
  intros [c w0|s w0|u w0 d' _ Hdel] Hinv; cbn [db].
  - eapply db_change_no_orphans; [apply dispatch_db_change|exact Hinv].
  - exact Hinv.
  - eapply delete_User_no_orphans; eassumption.
Qed.

Lemma reachable_unique_emails (w : World) :
  reachable w -> unique_emails (db w).
Proof.
  induction 1 as [|w0 w1 _ IH Hstep]; [constructor|].
  destruct Hstep as [c w0|s w0|u w0 d' _ Hdel]; cbn [db].
  - eapply db_change_unique_emails; [apply dispatch_db_change|exact IH].
  - exact IH.
  - rewrite delete_User_cascades in Hdel. injection Hdel as <-.
    unfold unique_emails. cbn [users]. now apply NoDup_map_filter.
Qed.

(** C10.  In every world reachable from the empty store by routed
    requests (under any session) and removals of users through the ORM,
    each post's [user_id] is the id of a stored user; each single step
    keeps that true; and removing a stored user under the cascade
    declared on [User.blog_posts] succeeds, leaves no user with that id
    and no post owned by it, keeps every other post, and keeps the
    invariant. *)
Theorem no_orphaned_posts (w : World) :
  reachable w ->
  no_orphans (db w) = true
  /\ (forall w', step w w' -> no_orphans (db w') = true)
  /\ (forall u, In u (users (db w)) ->
       exists d',
         delete_User User_blog_posts_cascade u (db w) = inr (tt, d')
         /\ get_User d' (User.id u) = None
         /\ (forall p, In p (blog_posts d') <->
                       In p (blog_posts (db w))
                       /\ BlogPost.user_id p <> User.id u)
         /\ no_orphans d' = true).
Proof.
  intros Hreach.
  assert (Hinv : no_orphans (db w) = true).
  { induction Hreach as [|w0 w1 _ IH Hstep]; [reflexivity|].
    now apply (step_no_orphans w0 w1). }
  split; [exact Hinv|split].
  - intros w' Hstep. now apply (step_no_orphans w w').
  - intros u _. eexists. split; [apply delete_User_cascades|].
    cbn [users blog_posts]. split; [|split].
    + unfold get_User. cbn [users].
      match goal with |- find ?f ?l = None =>
        destruct (find f l) as [v|] eqn:Hfind; [|reflexivity] end.
      apply find_some in Hfind as [Hv Hid].
      apply filter_In in Hv as [_ Hv].
      rewrite Hid in Hv. discriminate.
    + intros p. rewrite filter_In, negb_true_iff, Nat.eqb_neq. reflexivity.
    + eapply delete_User_no_orphans; [apply delete_User_cascades|exact Hinv].
Qed.

End Handlers.

Section StartupProperties.

Context {database : Database}.

(** C9.  Start-up stores whatever [os.getenv] returns and checks
    neither setting itself.  With [DATABASE_URL] unset it stops in the
    database extension.  With it set, whether the import goes through
    is decided by the database layer alone (building the engine, then
    [db.create_all()]): two environments with the same [DATABASE_URL]
    start or stop alike, whatever their secret keys.  The secret key is
    never looked at: when start-up goes through the configuration
    carries exactly what the environment had, [None] when the key is
    unset. *)
Theorem startup_checks_database_url_only (environ : Environ) :
  (getenv environ "DATABASE_URL" = None ->
   startup environ
   = inl (RuntimeError
            "Either 'SQLALCHEMY_DATABASE_URI' or 'SQLALCHEMY_BINDS' must be set."))
  /\ (forall other : Environ,
        getenv other "DATABASE_URL" = getenv environ "DATABASE_URL" ->
        match startup environ, startup other with
        | inl e, inl e' => e = e'
        | inr _, inr _ => True
        | _, _ => False
        end)
  /\ (forall config,
        startup environ = inr config ->
        SECRET_KEY config = getenv environ "SECRET_KEY"
        /\ exists uri,
             getenv environ "DATABASE_URL" = Some uri
             /\ SQLALCHEMY_DATABASE_URI config = Some uri
             /\ create_engine uri = None
             /\ create_all uri = None)
  /\ (forall uri,
        getenv environ "DATABASE_URL" = Some uri ->
        create_engine uri = None ->
        create_all uri = None ->
        startup environ = inr (mkConfig (getenv environ "SECRET_KEY") (Some uri))).
Proof.
  unfold startup, init_app. cbn [SQLALCHEMY_DATABASE_URI SECRET_KEY].
  split; [|split; [|split]].
  - intros Hnone. now rewrite Hnone.
  - intros other Hsame. rewrite Hsame.
    destruct (getenv environ "DATABASE_URL") as [uri|]; [|reflexivity].
    destruct (create_engine uri); [reflexivity|].
    now destruct (create_all uri).
  - intros config.
    destruct (getenv environ "DATABASE_URL") as [uri|] eqn:Huri; [|discriminate].
    destruct (create_engine uri) eqn:Hengine; [discriminate|].
    destruct (create_all uri) eqn:Htables; [discriminate|].
    intros [= <-]. cbn [SECRET_KEY SQLALCHEMY_DATABASE_URI].
    split; [reflexivity|]. now exists uri.
  - intros uri Huri Hengine Htables. now rewrite Huri, Hengine, Htables.
Qed.

End StartupProperties.

(** C9, as first stated, fails: with a database layer that serves the
    SQLite file, an environment with the database URL and no secret
    key starts. *)
Lemma startup_without_secret_key :
  ~ (forall environ : Environ,
       getenv environ "SECRET_KEY" = None \/ getenv environ "DATABASE_URL" = None ->
       exists e, @startup sqlite_only environ = inl e).
Proof.
  intros Hfail.
  destruct (Hfail only_database_url) as [e He]; [now left|].
  discriminate He.
Qed.


(** ** The theorems at work on the demo store *)

Lemma access_gate_owner_only_witness :
  get_BlogPost (db as_bob) 1 = Some hello
  /\ @dispatch demo_forms demo_security (call_delete 1) as_bob
     = (inl (HTTPException 403), as_bob)
  /\ @dispatch demo_forms demo_security (call_delete 1) as_alice
     = @delete_post (1, tt) as_alice.
Proof.
  split; [reflexivity|split].
  - destruct (@access_gate_owner_only demo_forms demo_security 1 hello
                (mkRequest GET first_post) as_bob eq_refl)
      as (_ & Hdenied & _).
    now apply Hdenied.
  - destruct (@access_gate_owner_only demo_forms demo_security 1 hello
                (mkRequest GET first_post) as_alice eq_refl)
      as (Hallowed & _).
    now apply Hallowed.
Defined.


Lemma startup_checks_database_url_only_witness :
  @startup sqlite_only only_database_url
  = inr (mkConfig None (Some "sqlite:///post.db")).
Proof.
  destruct (@startup_checks_database_url_only sqlite_only only_database_url)
    as (_ & _ & _ & Hstarts).
  now apply Hstarts.
Defined.

Lemma register_duplicate_email_witness :
  In alice (users (db as_guest))
  /\ db (snd (@dispatch demo_forms demo_security
               (call_register "s9"
                  (mkRequest POST (RegisterForm.mk "eve" "a@x.com" "pw9")))
               as_guest)) = demo_db.
Proof.
  split; [now left|].
  destruct (@register_duplicate_email demo_forms demo_security "s9"
              (mkRequest POST (RegisterForm.mk "eve" "a@x.com" "pw9"))
              as_guest alice (or_introl eq_refl) eq_refl)
    as (_ & Hdb & _).
  exact Hdb.
Defined.

Lemma login_unknown_email_witness :
  @dispatch demo_forms demo_security
    (call_login (mkRequest POST (LoginForm.mk "nobody@x.com" "pw")))
    initial_world
  = (inr (redirect (url_for "register" None)),
     mkWorld empty_db None [("danger", "Email doesn't exist !")]).
Proof.
  destruct (@login_unknown_email demo_forms demo_security
              (mkRequest POST (LoginForm.mk "nobody@x.com" "pw")) initial_world)
    as (Hredirect & _).
  - intros u [].
  - now apply Hredirect.
Defined.

Lemma demo_db_unique_emails : unique_emails demo_db.
Proof.
  unfold unique_emails. cbn.
  repeat constructor; cbn; intuition discriminate.
Defined.

Lemma login_wrong_password_witness :
  @dispatch demo_forms demo_security
    (call_login (mkRequest POST (LoginForm.mk "a@x.com" "pw2"))) as_guest
  = (inr (render_template "login.html" (login_args (LoginForm.mk "a@x.com" "pw2"))),
     mkWorld demo_db None [("danger", "Incorrect Password!")]).
Proof.
  destruct (@login_wrong_password demo_forms demo_security
              (mkRequest POST (LoginForm.mk "a@x.com" "pw2")) as_guest alice
              demo_db_unique_emails (or_introl eq_refl) eq_refl eq_refl)
    as (Hwrong & _).
  now apply Hwrong.
Defined.

Lemma new_post_duplicate_title_witness :
  @dispatch demo_forms demo_security
    (call_new_post "May 01, 2024" (mkRequest POST first_post)) as_bob
  = (inl (Unhandled (IntegrityError "blog_posts.title")), as_bob).
Proof.
  apply (@new_post_duplicate_title demo_forms demo_security "May 01, 2024"
           (mkRequest POST first_post) as_bob bob hello);
    [reflexivity|now left|reflexivity|reflexivity].
Defined.

Lemma edit_post_effect_witness :
  get_BlogPost (db as_alice) 1 = Some hello
  /\ exists w',
       @dispatch demo_forms demo_security
         (call_edit_post 1 (mkRequest POST second_post)) as_alice
       = (inr (redirect (url_for "show_post" (Some 1))), w')
       /\ get_BlogPost (db w') 1
          = Some (BlogPost.mk 1 1 "Hello again" "second" "April 05, 2024"
                    "more text" "again.png").
Proof.
  split; [reflexivity|].
  destruct (@edit_post_effect demo_forms demo_security 1 hello
              (mkRequest POST second_post) as_alice eq_refl)
    as (Hgate & Heffect & Hruns & _).
  destruct (Hruns alice eq_refl eq_refl eq_refl eq_refl) as (w' & Hrun & _).
  exists w'. split; [exact Hrun|].
  destruct (Hgate _ _ Hrun) as (_ & Hbody).
  destruct (Heffect _ _ Hbody) as (u & Hcu & _ & Hrow & _).
  assert (Halice : current_user as_alice = (inr (Some alice), as_alice))
    by reflexivity.
  rewrite Halice in Hcu. injection Hcu as <-.
  exact Hrow.
Defined.

Lemma after_first_post_reachable :
  @reachable demo_forms demo_security after_first_post.
Proof.
  unfold after_first_post, after_register.
  eapply reachable_step; [|apply step_request].
  eapply reachable_step; [|apply step_request].
  apply reachable_initial.
Defined.

Lemma no_orphaned_posts_witness :
  @reachable demo_forms demo_security after_first_post
  /\ no_orphans (db after_first_post) = true.
Proof.
  split; [exact after_first_post_reachable|].
  destruct (@no_orphaned_posts demo_forms demo_security after_first_post
              after_first_post_reachable) as (Hinv & _).
  exact Hinv.
Defined.

(** The demo run ends in Alice's store, with her session. *)
Example after_first_post_value :
  after_first_post
  = mkWorld (mkDB [alice] [hello]) (Some 1) [].
Proof. reflexivity. Qed.

(** A stored string equal to the submitted password does not log in
    when the primitive says no. *)
Example plaintext_match_does_not_authenticate :
  @dispatch demo_forms rejecting_security
    (call_login (mkRequest POST (LoginForm.mk "a@x.com" "s1$pw1"))) as_guest
  = (inr (render_template "login.html"
            (login_args (LoginForm.mk "a@x.com" "s1$pw1"))),
     mkWorld demo_db None [("danger", "Incorrect Password!")]).
Proof. reflexivity. Qed.

(** Run without the gate, the body hands Alice's post to Bob. *)
Example edit_post_body_reassigns_owner :
  get_BlogPost
    (db (snd (@edit_post demo_forms (1, mkRequest POST second_post) as_bob))) 1
  = Some (BlogPost.mk 1 2 "Hello again" "second" "April 05, 2024"
            "more text" "again.png").
Proof. reflexivity. Qed.

(** The end-to-end scenario of the access rule: Bob may not edit
    Alice's post. *)
Example bob_cannot_edit_hello :
  @dispatch demo_forms demo_security
    (call_edit_post 1 (mkRequest POST second_post)) as_bob
  = (inl (HTTPException 403), as_bob).
Proof. reflexivity. Qed.

(** A user whose id is 1 gets no special treatment on somebody else's
    post. *)
Example user_1_is_no_admin :
  @dispatch demo_forms demo_security (call_delete 1)
    (mkWorld (mkDB [alice; bob]
                [BlogPost.mk 1 2 "Bob's" "s" "May 01, 2024" "b" "i.png"])
       (Some 1) [])
  = (inl (HTTPException 403),
     mkWorld (mkDB [alice; bob]
                [BlogPost.mk 1 2 "Bob's" "s" "May 01, 2024" "b" "i.png"])
       (Some 1) []).
Proof. reflexivity. Qed.

(** The routed view at a guest's submission with an empty title: the
    form comes back, no login is asked for. *)
Example anonymous_new_post_renders_form :
  @dispatch demo_forms demo_security
    (call_new_post "April 05, 2024"
       (mkRequest POST (CreatePostForm.mk "" "s" "i.png" "b"))) as_guest
  = (inr (render_template "make-post.html"
            (make_post_args (CreatePostForm.mk "" "s" "i.png" "b") false)),
     as_guest).
Proof. reflexivity. Qed.

(* ================================================================== *)
(** * Further properties of the views *)

(** ** Lookups after an insertion or a deletion *)

Lemma find_app_some {A : Type} (f : A -> bool) (l l' : list A) (x : A) :
  find f l = Some x -> find f (l ++ l') = Some x.
Proof.
  induction l as [|a l IH]; cbn [find app]; [discriminate|].
  destruct (f a); [trivial|exact IH].
Qed.

Lemma find_app_none {A : Type} (f : A -> bool) (l l' : list A) :
  find f l = None -> find f (l ++ l') = find f l'.
Proof.
  induction l as [|a l IH]; cbn [find app]; [trivial|].
  destruct (f a); [discriminate|exact IH].
Qed.

Lemma next_id_fresh (ids : list nat) (i : nat) :
  In i ids -> i < next_id ids.
Proof.
  intros Hin. unfold next_id.
  assert (Hall : Forall (fun k => k <= list_max ids) ids)
    by (apply list_max_le; apply Nat.le_refl).
  rewrite Forall_forall in Hall. apply Hall in Hin. lia.
Qed.

Lemma get_User_next_id (d : DB) :
  get_User d (next_id (map User.id (users d))) = None.
Proof.
  unfold get_User.
  destruct (find _ (users d)) as [u|] eqn:Hfind; [|reflexivity].
  apply find_some in Hfind as [Hin Hid]. apply Nat.eqb_eq in Hid.
  apply (in_map User.id) in Hin. apply next_id_fresh in Hin. lia.
Qed.

Lemma get_BlogPost_next_id (d : DB) :
  get_BlogPost d (next_id (map BlogPost.id (blog_posts d))) = None.
Proof.
  unfold get_BlogPost.
  destruct (find _ (blog_posts d)) as [p|] eqn:Hfind; [|reflexivity].
  apply find_some in Hfind as [Hin Hid]. apply Nat.eqb_eq in Hid.
  apply (in_map BlogPost.id) in Hin. apply next_id_fresh in Hin. lia.
Qed.

Lemma find_filter_other (ps : list BlogPost.t) (k i : nat) :
  i <> k ->
  find (fun p => BlogPost.id p =? i)
    (filter (fun q => negb (BlogPost.id q =? k)) ps)
  = find (fun p => BlogPost.id p =? i) ps.
Proof.
  intros Hik. induction ps as [|a ps IH]; [reflexivity|].
  cbn [filter find].
  destruct (BlogPost.id a =? k) eqn:Hak; cbn [negb find].
  - apply Nat.eqb_eq in Hak.
    rewrite (proj2 (Nat.eqb_neq (BlogPost.id a) i)) by congruence.
    exact IH.
  - destruct (BlogPost.id a =? i); [reflexivity|exact IH].
Qed.

Lemma find_filter_same (ps : list BlogPost.t) (k : nat) :
  find (fun p => BlogPost.id p =? k)
    (filter (fun q => negb (BlogPost.id q =? k)) ps) = None.
Proof.
  induction ps as [|a ps IH]; [reflexivity|].
  cbn [filter]. destruct (BlogPost.id a =? k) eqn:Hak; cbn [negb find].
  - exact IH.
  - now rewrite Hak.
Qed.

(** The session resolves to a stored user carrying the session's id. *)
Lemma current_user_stored (w : World) (u : User.t) :
  current_user w = (inr (Some u), w) ->
  session w = Some (User.id u) /\ get_User (db w) (User.id u) = Some u.
Proof.
  rewrite current_user_run. intros Hcu.
  destruct (session w) as [user_id|]; [|discriminate].
  assert (Hu : get_User (db w) user_id = Some u) by congruence.
  pose proof (get_User_id _ _ _ Hu) as <-. now split.
Qed.

Lemma is_author_current_user (w : World) (post : BlogPost.t) :
  is_author w post = true ->
  exists u, current_user w = (inr (Some u), w)
            /\ User.id u = BlogPost.user_id post.
Proof.
  rewrite current_user_run. unfold is_author.
  destruct (session w) as [user_id|]; [|discriminate].
  destruct (get_User (db w) user_id) as [u|]; [|discriminate].
  intros Hid. apply Nat.eqb_eq in Hid. now exists u.
Qed.

(** Splits a goal along the innermost test a handler still has to make. *)
Ltac explore :=
  repeat (cbv beta iota zeta; cbn [fst snd db session flashes];
          match goal with
          | |- context [match ?x with _ => _ end] =>
              lazymatch x with
              | context [match _ with _ => _ end] => fail
              | _ => destruct x eqn:?
              end
          end);
  cbv beta iota zeta; cbn [fst snd db session flashes].

(** Merges the equations [explore] leaves about one and the same lookup. *)
Ltac tidy :=
  repeat match goal with
         | H : Some ?a = Some ?b |- _ =>
             assert (a = b) by congruence; clear H; subst a
         | H1 : ?t = Some ?a, H2 : ?t = Some ?b |- _ =>
             assert (b = a) by congruence; clear H2; subst b
         end;
  cbn [BlogPost.id BlogPost.user_id BlogPost.title BlogPost.date
       User.id User.email] in *.

Ltac unfold_views :=
  cbn [dispatch add_new_post_stack edit_post_stack delete_post_stack route fst];
  unfold get_all_posts, login, register, logout, show_post, add_new_post,
    edit_post, delete_post, about, contact, admin_or_author,
    insert_User, insert_BlogPost, update_BlogPost, delete_BlogPost,
    validate_on_submit;
  run_monad.

Section Routes.

Context {forms : Forms} {security : Security}.

(** X1.  A routed request that ends in an HTTP error or an unhandled
    exception leaves the store, the session and the flashed messages
    exactly as they were. *)
Theorem errors_are_atomic (c : Call) (w : World) (h : Halt) :
  fst (dispatch c w) = inl h -> snd (dispatch c w) = w.
Proof.
  destruct c; unfold_views; explore; intros Hhalt;
    try discriminate Hhalt; try reflexivity; now destruct w.
Qed.

(** ** Every routed request is one of the five store changes *)

Lemma register_routed_change (salt : string) (req : Request RegisterForm.t)
  (w : World) : routed_change w (db (snd (dispatch (call_register salt req) w))).
Proof.
  unfold_views; explore; try (apply change_none; reflexivity).
  eapply change_register; [eassumption|reflexivity].
Qed.

Lemma add_new_post_routed_change (today : string)
  (req : Request CreatePostForm.t) (w : World) :
  routed_change w (db (snd (dispatch (call_new_post today req) w))).
Proof.
  unfold_views; explore; try (apply change_none; reflexivity).
  match goal with
  | Hs : session w = Some ?i, Hu : get_User (db w) ?i = Some ?u |- _ =>
      eapply change_add_new_post with (author := u);
        [rewrite current_user_run, Hs; now rewrite Hu|eassumption|reflexivity]
  end.
Qed.

Lemma gate_passed (w : World) (post : BlogPost.t) (user_id : nat) (u : User.t) :
  session w = Some user_id ->
  get_User (db w) user_id = Some u ->
  py_ne (PyUser u) (PyInt 1) && negb (User.id u =? BlogPost.user_id post) = false ->
  is_author w post = true /\ User.id u = BlogPost.user_id post.
Proof.
  intros Hs Hu Hgate. unfold is_author. rewrite Hs, Hu.
  rewrite py_ne_user_int in Hgate. cbn [andb] in Hgate.
  apply negb_false_iff in Hgate. split; [exact Hgate|].
  now apply Nat.eqb_eq.
Qed.

Lemma edit_post_routed_change (post_id : nat) (req : Request CreatePostForm.t)
  (w : World) :
  routed_change w (db (snd (dispatch (call_edit_post post_id req) w))).
Proof.
  unfold_views; explore; try (apply change_none; reflexivity); tidy.
  match goal with
  | Hp : get_BlogPost (db w) post_id = Some ?old,
    Hs : session w = Some ?i, Hu : get_User (db w) ?i = Some ?u,
    Hg : py_ne (PyUser ?u) (PyInt 1) && _ = false |- _ =>
      destruct (gate_passed w old i u Hs Hu Hg) as [Hauthor Hid];
      pose proof (get_BlogPost_id _ _ _ Hp) as Hpid;
      rewrite <- Hpid in Hp
  end.
  rewrite Hid.
  eapply change_edit_post; [eassumption|assumption|eassumption|reflexivity].
Qed.

Lemma delete_post_routed_change (post_id : nat) (w : World) :
  routed_change w (db (snd (dispatch (call_delete post_id) w))).
Proof.
  unfold_views; explore; try (apply change_none; reflexivity); tidy.
  match goal with
  | Hp : get_BlogPost (db w) post_id = Some ?old,
    Hs : session w = Some ?i, Hu : get_User (db w) ?i = Some ?u,
    Hg : py_ne (PyUser ?u) (PyInt 1) && _ = false |- _ =>
      destruct (gate_passed w old i u Hs Hu Hg) as [Hauthor Hid];
      pose proof (get_BlogPost_id _ _ _ Hp) as Hpid;
      rewrite <- Hpid in Hp
  end.
  eapply change_delete_post; [eassumption|assumption|reflexivity].
Qed.

Lemma dispatch_routed_change (c : Call) (w : World) :
  routed_change w (db (snd (dispatch c w))).
Proof.
  destruct c.
  - unfold_views; explore; apply change_none; reflexivity.
  - unfold_views; explore; apply change_none; reflexivity.
  - apply register_routed_change.
  - unfold_views; explore; apply change_none; reflexivity.
  - unfold_views; explore; apply change_none; reflexivity.
  - apply add_new_post_routed_change.
  - apply edit_post_routed_change.
  - apply delete_post_routed_change.
  - unfold_views; explore; apply change_none; reflexivity.
  - unfold_views; explore; apply change_none; reflexivity.
Qed.

(** X2.  No routed request updates or removes a user: the users table
    afterwards is the old one followed by at most one new row, and
    every id that resolved to a user still resolves to the same row,
    password hash included. *)
Theorem users_append_only (c : Call) (w : World) :
  (exists added,
     users (db (snd (dispatch c w))) = users (db w) ++ added
     /\ length added <= 1)
  /\ (forall i u, get_User (db w) i = Some u ->
                  get_User (db (snd (dispatch c w))) i = Some u).
Proof.
  destruct (dispatch_routed_change c w)
    as [->|username email password _ ->|author t st dt b img _ _ ->
        |old t st b img _ _ _ ->|old _ _ ->]; cbn [users].
  1, 3, 4, 5:
    split; [exists []; split; [now rewrite app_nil_r|cbn [length]; lia]|trivial].
  split.
  - eexists. split; [reflexivity|]. cbn [length]. lia.
  - intros i u Hu. unfold get_User in *. cbn [users].
    now apply find_app_some.
Qed.

(** X3.  A request from anybody who is not logged in as a post's owner
    leaves that post in the store exactly as it was, whatever the
    request is. *)
Theorem only_the_owner_changes_a_post (c : Call) (w : World) (i : nat)
  (p : BlogPost.t) :
  get_BlogPost (db w) i = Some p ->
  is_author w p = false ->
  get_BlogPost (db (snd (dispatch c w))) i = Some p.
Proof.
  intros Hp Hother.
  destruct (dispatch_routed_change c w)
    as [->|username email password _ ->|author t st dt b img _ _ ->
        |old t st b img Hold Hauthor _ ->|old Hold Hauthor ->];
    unfold get_BlogPost in *; cbn [blog_posts]; try exact Hp.
  - now apply find_app_some.
  - destruct (Nat.eq_dec i (BlogPost.id old)) as [->|Hi].
    + assert (old = p) as -> by congruence. congruence.
    + rewrite find_update by reflexivity.
      now rewrite (proj2 (Nat.eqb_neq _ _) Hi).
  - destruct (Nat.eq_dec i (BlogPost.id old)) as [->|Hi].
    + assert (old = p) as -> by congruence. congruence.
    + now rewrite find_filter_other.
Qed.

(** X4.  Through the routes a stored post never changes its id, its
    owner or its date: whatever row is found under the same id after a
    request carries the three values it carried before. *)
Theorem id_owner_date_are_fixed (c : Call) (w : World) (i : nat)
  (p p' : BlogPost.t) :
  get_BlogPost (db w) i = Some p ->
  get_BlogPost (db (snd (dispatch c w))) i = Some p' ->
  BlogPost.id p' = BlogPost.id p
  /\ BlogPost.user_id p' = BlogPost.user_id p
  /\ BlogPost.date p' = BlogPost.date p.
Proof.
  intros Hp.
  destruct (dispatch_routed_change c w)
    as [->|username email password _ ->|author t st dt b img _ _ ->
        |old t st b img Hold Hauthor _ ->|old Hold Hauthor ->];
    unfold get_BlogPost in *; cbn [blog_posts].
  - intros Hp'. assert (p' = p) as -> by congruence. now repeat split.
  - intros Hp'. assert (p' = p) as -> by congruence. now repeat split.
  - rewrite (find_app_some _ _ _ _ Hp).
    intros Hp'. assert (p' = p) as -> by congruence. now repeat split.
  - rewrite find_update by reflexivity.
    destruct (i =? BlogPost.id old) eqn:Hi.
    + apply Nat.eqb_eq in Hi. subst i.
      assert (old = p) as -> by congruence.
      unfold get_BlogPost in Hold. rewrite Hold.
      intros [= <-]. now repeat split.
    + intros Hp'. assert (p' = p) as -> by congruence. now repeat split.
  - destruct (Nat.eq_dec i (BlogPost.id old)) as [->|Hi].
    + rewrite find_filter_same. discriminate.
    + rewrite find_filter_other by exact Hi.
      intros Hp'. assert (p' = p) as -> by congruence. now repeat split.
Qed.

(** ** The tables' constraints hold in every reachable store *)

Lemma NoDup_map_injective {A B : Type} (f : A -> B) (l : list A) (a b : A) :
  NoDup (map f l) -> In a l -> In b l -> f a = f b -> a = b.
Proof.
  induction l as [|x l IH]; intros Hnodup Ha Hb Hf; [destruct Ha|].
  cbn [map] in Hnodup. apply NoDup_cons_iff in Hnodup as [Hx Hnodup].
  destruct Ha as [->|Ha]; destruct Hb as [->|Hb].
  - reflexivity.
  - exfalso. apply Hx. rewrite Hf. now apply in_map.
  - exfalso. apply Hx. rewrite <- Hf. now apply in_map.
  - now apply IH.
Qed.

Lemma update_absent (ps : list BlogPost.t) (k : nat) (new : BlogPost.t) :
  ~ In k (map BlogPost.id ps) ->
  map (fun q => if BlogPost.id q =? k then new else q) ps = ps.
Proof.
  induction ps as [|a ps IH]; intros Habsent; [reflexivity|].
  cbn [map] in *.
  rewrite (proj2 (Nat.eqb_neq (BlogPost.id a) k)) by (intros Heq; apply Habsent; now left).
  f_equal. apply IH. intros Hin. apply Habsent. now right.
Qed.

Lemma titles_after_update (ps : list BlogPost.t) (k : nat) (new : BlogPost.t) :
  NoDup (map BlogPost.id ps) ->
  NoDup (map BlogPost.title ps) ->
  (forall q, In q ps -> BlogPost.id q <> k ->
             BlogPost.title q <> BlogPost.title new) ->
  NoDup (map BlogPost.title
           (map (fun q => if BlogPost.id q =? k then new else q) ps)).
Proof.
  induction ps as [|a ps IH]; intros Hids Htitles Hfree; [constructor|].
  cbn [map] in *.
  apply NoDup_cons_iff in Hids as [Ha Hids].
  apply NoDup_cons_iff in Htitles as [Hta Htitles].
  destruct (BlogPost.id a =? k) eqn:Hak.
  - apply Nat.eqb_eq in Hak. subst k.
    rewrite update_absent by exact Ha.
    constructor; [|exact Htitles].
    intros Hin. apply in_map_iff in Hin as (q & Hq & Hin).
    apply (Hfree q); [now right| |exact Hq].
    intros Heq. apply Ha. rewrite <- Heq. now apply in_map.
  - apply Nat.eqb_neq in Hak.
    constructor.
    + intros Hin. apply in_map_iff in Hin as (q' & Hq' & Hin).
      apply in_map_iff in Hin as (q & Hq & Hin).
      destruct (BlogPost.id q =? k); subst q'.
      * apply (Hfree a); [now left|exact Hak|now symmetry].
      * apply Hta. rewrite <- Hq'. now apply in_map.
    + apply IH; [exact Hids|exact Htitles|].
      intros q Hq. apply Hfree. now right.
Qed.

Lemma routed_change_wellformed (w : World) (d' : DB) :
  routed_change w d' -> wellformed (db w) -> wellformed d'.
Proof.
  unfold wellformed, unique_User_ids, unique_BlogPost_ids, unique_emails,
    unique_titles.
  intros [->|username email password Hfresh ->|author t st dt b img _ Hfresh ->
          |old t st b img Hold _ Hcheck ->|old _ _ ->]
         (Huids & Hpids & Hemails & Htitles);
    cbn [users blog_posts].
  - now repeat split.
  - repeat split; try assumption; rewrite map_app; cbn [map];
      apply NoDup_snoc; try assumption.
    + intros Hin. apply next_id_fresh in Hin. cbn [User.id] in Hin. lia.
    + cbn [User.email]. intros Hin. apply in_map_iff in Hin as (v & Hv & Hin).
      assert (Hex : existsb (fun v => String.eqb (User.email v) email)
                      (users (db w)) = true).
      { apply existsb_exists. exists v. split; [exact Hin|].
        now apply String.eqb_eq. }
      rewrite Hex in Hfresh. discriminate.
  - repeat split; try assumption; rewrite map_app; cbn [map];
      apply NoDup_snoc; try assumption.
    + intros Hin. apply next_id_fresh in Hin. cbn [BlogPost.id] in Hin. lia.
    + cbn [BlogPost.title]. intros Hin.
      apply in_map_iff in Hin as (q & Hq & Hin).
      assert (Hex : existsb (fun p => String.eqb (BlogPost.title p) t)
                      (blog_posts (db w)) = true).
      { apply existsb_exists. exists q. split; [exact Hin|].
        now apply String.eqb_eq. }
      rewrite Hex in Hfresh. discriminate.
  - repeat split; try assumption.
    + now rewrite map_id_update.
    + apply titles_after_update; try assumption.
      cbn [BlogPost.title]. intros q Hq Hid Htitle.
      apply andb_false_iff in Hcheck as [Hsame|Hnone].
      * apply negb_false_iff, String.eqb_eq in Hsame.
        apply Hid. f_equal.
        apply (NoDup_map_injective BlogPost.title (blog_posts (db w)));
          [exact Htitles|exact Hq|now apply get_BlogPost_In in Hold|congruence].
      * assert (Hex : existsb
                        (fun q => negb (BlogPost.id q =? BlogPost.id old)
                                  && String.eqb (BlogPost.title q) t)
                        (blog_posts (db w)) = true).
        { apply existsb_exists. exists q. split; [exact Hq|].
          apply andb_true_iff. split.
          - now apply negb_true_iff, Nat.eqb_neq.
          - now apply String.eqb_eq. }
        rewrite Hex in Hnone. discriminate.
  - repeat split; try assumption; now apply NoDup_map_filter.
Qed.

Lemma delete_User_wellformed (u : User.t) (d d' : DB) :
  delete_User User_blog_posts_cascade u d = inr (tt, d') ->
  wellformed d -> wellformed d'.
Proof.
  rewrite delete_User_cascades. intros [= <-].
  unfold wellformed, unique_User_ids, unique_BlogPost_ids, unique_emails,
    unique_titles. cbn [users blog_posts].
  intros (Huids & Hpids & Hemails & Htitles).
  repeat split; now apply NoDup_map_filter.
Qed.

(** X5.  In every reachable world the store satisfies the declared
    constraints: user ids, post ids, emails and titles are each
    pairwise distinct; in particular an edit never makes two posts
    share a title. *)
Theorem reachable_wellformed (w : World) :
  reachable w -> wellformed (db w).
Proof.
  induction 1 as [|w0 w1 _ IH Hstep].
  - repeat split; constructor.
  - destruct Hstep as [c w0|s w0|u w0 d' _ Hdel]; cbn [db].
    + eapply routed_change_wellformed; [apply dispatch_routed_change|exact IH].
    + exact IH.
    + eapply delete_User_wellformed; eassumption.
Qed.

(** ** Round trips *)

Lemma get_User_unique (d : DB) (u : User.t) :
  unique_User_ids d -> In u (users d) -> get_User d (User.id u) = Some u.
Proof.
  intros Hids Hin. unfold get_User.
  destruct (find (fun v => User.id v =? User.id u) (users d)) as [v|] eqn:Hfind.
  - apply find_some in Hfind as [Hv Hid]. apply Nat.eqb_eq in Hid.
    f_equal. now apply (NoDup_map_injective User.id (users d)).
  - apply (find_none _ _ Hfind) in Hin. now rewrite Nat.eqb_refl in Hin.
Qed.

Lemma select_after_insert (d : DB) (u : User.t) :
  select_User_where_email d (User.email u) = [] ->
  select_User_where_email (mkDB (users d ++ [u]) (blog_posts d)) (User.email u)
  = [u].
Proof.
  unfold select_User_where_email. cbn [users]. intros Hnone.
  rewrite filter_app, Hnone. cbn [filter app].
  now rewrite String.eqb_refl.
Qed.

(** X6.  A validated registration with an email that no stored user
    has answers with the redirect to the front page, adds one user
    under an id no stored user had, with the submitted name and email
    and the hash of the submitted password, and leaves the caller
    logged in as that user. *)
Theorem register_logs_in_the_new_user (salt : string)
  (req : Request RegisterForm.t) (w : World) :
  validate_on_submit validate_RegisterForm req = true ->
  (forall u, In u (users (db w)) ->
             User.email u <> RegisterForm.email (form req)) ->
  exists new_user,
    let w' := snd (dispatch (call_register salt req) w) in
    fst (dispatch (call_register salt req) w)
    = inr (redirect (url_for "get_all_posts" None))
    /\ users (db w') = users (db w) ++ [new_user]
    /\ blog_posts (db w') = blog_posts (db w)
    /\ User.username new_user = RegisterForm.username (form req)
    /\ User.email new_user = RegisterForm.email (form req)
    /\ User.password new_user
       = generate_password_hash salt (RegisterForm.password (form req))
    /\ get_User (db w) (User.id new_user) = None
    /\ current_user w' = (inr (Some new_user), w').
Proof.
  intros Hvalid Hnone.
  apply select_User_where_email_none in Hnone.
  eexists.
  cbn [dispatch route fst]. unfold register, insert_User.
  rewrite Hvalid. run_monad. rewrite Hnone. cbn [scalar hd_error].
  rewrite (existsb_email_false _ _ Hnone).
  cbn [fst snd db users blog_posts User.username User.email User.password
       User.id session].
  repeat split.
  - apply get_User_next_id.
  - unfold get_User. cbn [users].
    rewrite find_app_none by apply get_User_next_id.
    cbn [find User.id]. now rewrite Nat.eqb_refl.
Qed.

(** X7.  Registration followed by login: provided the hashing primitive
    verifies a password against its own hash, a user registered with an
    unused email can afterwards log in, from any session, with the same
    email and password, and is then the current user. *)
Theorem register_then_login (salt : string) (req : Request RegisterForm.t)
  (w : World) (s : option nat) (fl : list (string * string))
  (lreq : Request LoginForm.t) :
  check_password_hash
    (generate_password_hash salt (RegisterForm.password (form req)))
    (RegisterForm.password (form req)) = true ->
  validate_on_submit validate_RegisterForm req = true ->
  (forall u, In u (users (db w)) ->
             User.email u <> RegisterForm.email (form req)) ->
  validate_on_submit validate_LoginForm lreq = true ->
  LoginForm.email (form lreq) = RegisterForm.email (form req) ->
  LoginForm.password (form lreq) = RegisterForm.password (form req) ->
  let registered := db (snd (dispatch (call_register salt req) w)) in
  exists new_user,
    In new_user (users registered)
    /\ User.email new_user = RegisterForm.email (form req)
    /\ dispatch (call_login lreq) (mkWorld registered s fl)
       = (inr (redirect (url_for "get_all_posts" None)),
          mkWorld registered (Some (User.id new_user)) fl)
    /\ current_user (mkWorld registered (Some (User.id new_user)) fl)
       = (inr (Some new_user), mkWorld registered (Some (User.id new_user)) fl).
Proof.
  intros Hhash Hvalid Hnone Hlvalid Hemail Hpw registered.
  apply select_User_where_email_none in Hnone.
  set (new_user := User.mk (next_id (map User.id (users (db w))))
                     (RegisterForm.username (form req))
                     (RegisterForm.email (form req))
                     (generate_password_hash salt
                        (RegisterForm.password (form req)))).
  assert (Hreg : registered = mkDB (users (db w) ++ [new_user]) (blog_posts (db w))).
  { unfold registered. cbn [dispatch route fst]. unfold register, insert_User.
    rewrite Hvalid. run_monad. rewrite Hnone. cbn [scalar hd_error].
    now rewrite (existsb_email_false _ _ Hnone). }
  exists new_user. rewrite Hreg. cbn [users].
  split; [apply in_or_app; right; now left|].
  split; [reflexivity|].
  split.
  - cbn [dispatch route fst]. unfold login.
    rewrite Hlvalid. run_monad. cbn [db].
    rewrite Hemail.
    change (RegisterForm.email (form req)) with (User.email new_user).
    rewrite (select_after_insert (db w) new_user) by exact Hnone.
    cbn [scalar_one_or_none User.password new_user].
    rewrite Hpw, Hhash. reflexivity.
  - rewrite current_user_run. cbn [session db].
    unfold get_User. cbn [users].
    rewrite find_app_none by apply get_User_next_id.
    cbn [find User.id new_user]. now rewrite Nat.eqb_refl.
Qed.

(** X8.  Logging in names exactly the user who owns the email: in a
    store with distinct user ids and emails, after a login whose
    password verifies the current user is that stored user, who thereby
    passes the gate for every post carrying their id. *)
Theorem login_establishes_identity (req : Request LoginForm.t) (w : World)
  (u : User.t) :
  wellformed (db w) ->
  In u (users (db w)) ->
  User.email u = LoginForm.email (form req) ->
  validate_on_submit validate_LoginForm req = true ->
  check_password_hash (User.password u) (LoginForm.password (form req)) = true ->
  let w' := snd (dispatch (call_login req) w) in
  current_user w' = (inr (Some u), w')
  /\ db w' = db w
  /\ (forall p, BlogPost.user_id p = User.id u -> is_author w' p = true).
Proof.
  intros (Huids & _ & Hemails & _) Hin Hemail Hvalid Hcheck w'.
  pose proof (select_User_where_email_unique (db w) u Hemails Hin) as Hsel.
  rewrite Hemail in Hsel.
  assert (Hw' : w' = mkWorld (db w) (Some (User.id u)) (flashes w)).
  { unfold w'. cbn [dispatch route fst]. unfold login.
    rewrite Hvalid. run_monad. rewrite Hsel. cbn [scalar_one_or_none].
    now rewrite Hcheck. }
  rewrite Hw'. pose proof (get_User_unique (db w) u Huids Hin) as Hu.
  repeat split.
  - rewrite current_user_run. cbn [session db]. now rewrite Hu.
  - intros p Hp. unfold is_author. cbn [session db]. rewrite Hu, Hp.
    apply Nat.eqb_refl.
Qed.

(** X9.  A validated create-post submission by a logged-in user with a
    title that no stored post has answers with the redirect to the
    front page; the post page of the new id then shows a post owned by
    the submitter, dated [today], with the submitted fields; the
    submitter passes the gate for it; and every post stored before is
    still found, unchanged, under its id. *)
Theorem new_post_then_show (today : string) (req : Request CreatePostForm.t)
  (w : World) (u : User.t) :
  current_user w = (inr (Some u), w) ->
  validate_on_submit validate_CreatePostForm req = true ->
  (forall p, In p (blog_posts (db w)) ->
             BlogPost.title p <> CreatePostForm.title (form req)) ->
  let w' := snd (dispatch (call_new_post today req) w) in
  let new_post :=
    BlogPost.mk (next_id (map BlogPost.id (blog_posts (db w)))) (User.id u)
      (CreatePostForm.title (form req)) (CreatePostForm.subtitle (form req))
      today (CreatePostForm.body (form req)) (CreatePostForm.img_url (form req)) in
  dispatch (call_new_post today req) w
  = (inr (redirect (url_for "get_all_posts" None)),
     mkWorld (mkDB (users (db w)) (blog_posts (db w) ++ [new_post]))
       (session w) (flashes w))
  /\ get_BlogPost (db w) (BlogPost.id new_post) = None
  /\ dispatch (call_show_post (BlogPost.id new_post)) w'
     = (inr (render_template "post.html" (post_args new_post)), w')
  /\ is_author w' new_post = true
  /\ (forall i p, get_BlogPost (db w) i = Some p ->
                  get_BlogPost (db w') i = Some p).
Proof.
  intros Hcu Hvalid Hfree w' new_post.
  assert (Hnone : existsb (fun p => String.eqb (BlogPost.title p)
                                      (CreatePostForm.title (form req)))
                    (blog_posts (db w)) = false).
  { apply not_true_is_false. intros Hex.
    apply existsb_exists in Hex as (p & Hp & Heq).
    apply String.eqb_eq in Heq. now apply (Hfree p). }
  assert (Hrun : dispatch (call_new_post today req) w
                 = (inr (redirect (url_for "get_all_posts" None)),
                    mkWorld (mkDB (users (db w)) (blog_posts (db w) ++ [new_post]))
                      (session w) (flashes w))).
  { cbn [dispatch add_new_post_stack route fst]. unfold add_new_post.
    rewrite Hvalid. unfold bind at 1. rewrite Hcu.
    unfold insert_BlogPost. run_monad. now rewrite Hnone. }
  destruct (current_user_stored w u Hcu) as [Hs Hu].
  unfold w'. rewrite Hrun. cbn [snd].
  split; [reflexivity|].
  split; [apply get_BlogPost_next_id|].
  assert (Hfound : get_BlogPost
                     (mkDB (users (db w)) (blog_posts (db w) ++ [new_post]))
                     (BlogPost.id new_post) = Some new_post).
  { unfold get_BlogPost. cbn [blog_posts].
    rewrite find_app_none by apply get_BlogPost_next_id.
    cbn [find BlogPost.id new_post]. now rewrite Nat.eqb_refl. }
  split; [|split].
  - cbn [dispatch route fst]. unfold show_post. run_monad. cbn [db].
    now rewrite Hfound.
  - unfold is_author. cbn [session db]. rewrite Hs.
    unfold get_User in *. cbn [users]. rewrite Hu.
    cbn [BlogPost.user_id new_post]. apply Nat.eqb_refl.
  - intros i p Hp. unfold get_BlogPost in *. cbn [db blog_posts].
    now apply find_app_some.
Qed.

(** X10.  When the owner of a stored post asks for its deletion, the
    answer is the redirect to the front page; afterwards no post is
    found under that id and its post page is a 404 (the id being one
    the store can hold, below 2^63), every post with another id is
    found as before, and users, session and flashes are untouched. *)
Theorem delete_then_show_is_404 (post_id : nat) (p : BlogPost.t) (w : World) :
  get_BlogPost (db w) post_id = Some p ->
  is_author w p = true ->
  let w' := snd (dispatch (call_delete post_id) w) in
  fst (dispatch (call_delete post_id) w)
  = inr (redirect (url_for "get_all_posts" None))
  /\ get_BlogPost (db w') post_id = None
  /\ ((Z.of_nat post_id < 2 ^ 63)%Z ->
      dispatch (call_show_post post_id) w' = (inl (HTTPException 404), w'))
  /\ (forall i, i <> post_id -> get_BlogPost (db w') i = get_BlogPost (db w) i)
  /\ users (db w') = users (db w)
  /\ session w' = session w
  /\ flashes w' = flashes w.
Proof.
  intros Hp Hauthor w'.
  pose proof (get_BlogPost_id _ _ _ Hp) as Hid.
  assert (Hrun : dispatch (call_delete post_id) w
                 = (inr (redirect (url_for "get_all_posts" None)),
                    mkWorld (mkDB (users (db w))
                               (filter (fun q => negb (BlogPost.id q =? post_id))
                                  (blog_posts (db w))))
                      (session w) (flashes w))).
  { cbn [dispatch delete_post_stack route fst].
    rewrite (admin_or_author_run _ _ _ _ _ Hp), Hauthor.
    unfold delete_post, delete_BlogPost. run_monad. now rewrite Hp, Hid. }
  unfold w'. rewrite Hrun. cbn [fst snd db users session flashes].
  assert (Hgone : get_BlogPost
                    (mkDB (users (db w))
                       (filter (fun q => negb (BlogPost.id q =? post_id))
                          (blog_posts (db w)))) post_id = None).
  { unfold get_BlogPost. cbn [blog_posts]. apply find_filter_same. }
  repeat split.
  - exact Hgone.
  - intros Hrange. rewrite show_post_miss by exact Hgone.
    unfold miss, out_of_range. now rewrite (proj2 (Z.leb_gt _ _) Hrange).
  - intros i Hi. unfold get_BlogPost. cbn [blog_posts].
    now apply find_filter_other.
Qed.

(** X11.  Logging out always answers with the redirect to the front
    page, empties the session slot and touches nothing else; doing it
    again changes nothing; and from the logged-out world every edit or
    delete of a stored post is refused with 403. *)
Theorem logout_then_gate_refuses (w : World) :
  let w' := snd (dispatch call_logout w) in
  dispatch call_logout w
  = (inr (redirect (url_for "get_all_posts" None)),
     mkWorld (db w) None (flashes w))
  /\ snd (dispatch call_logout w') = w'
  /\ current_user w' = (inr None, w')
  /\ (forall post_id p req,
        get_BlogPost (db w) post_id = Some p ->
        dispatch (call_edit_post post_id req) w' = (inl (HTTPException 403), w')
        /\ dispatch (call_delete post_id) w' = (inl (HTTPException 403), w')).
Proof.
  intros w'. unfold w'. clear w'.
  assert (Hrun : dispatch call_logout w
                 = (inr (redirect (url_for "get_all_posts" None)),
                    mkWorld (db w) None (flashes w))) by reflexivity.
  rewrite Hrun. cbn [snd].
  split; [reflexivity|split; [reflexivity|split; [reflexivity|]]].
  intros post_id p req Hp.
  cbn [dispatch edit_post_stack delete_post_stack route fst].
  rewrite !(admin_or_author_run _ _ _ (mkWorld (db w) None (flashes w)) p Hp).
  now split.
Qed.

(** X12.  Editing a post into a title that another stored post carries
    stops at the commit with the store's uniqueness violation on
    [blog_posts.title]; the store, the session and the flashes are
    untouched. *)
Theorem edit_post_duplicate_title (post_id : nat) (p q : BlogPost.t)
  (req : Request CreatePostForm.t) (w : World) :
  get_BlogPost (db w) post_id = Some p ->
  is_author w p = true ->
  validate_on_submit validate_CreatePostForm req = true ->
  In q (blog_posts (db w)) ->
  BlogPost.id q <> post_id ->
  BlogPost.title q = CreatePostForm.title (form req) ->
  BlogPost.title p <> CreatePostForm.title (form req) ->
  dispatch (call_edit_post post_id req) w
  = (inl (Unhandled (IntegrityError "blog_posts.title")), w).
Proof.
  intros Hp Hauthor Hvalid Hq Hqid Hqtitle Hptitle.
  pose proof (get_BlogPost_id _ _ _ Hp) as Hid.
  destruct (is_author_current_user w p Hauthor) as (u & Hcu & Huid).
  destruct (current_user_stored w u Hcu) as [Hs Hu].
  cbn [dispatch edit_post_stack route fst].
  rewrite (admin_or_author_run _ _ _ _ _ Hp), Hauthor.
  unfold edit_post, update_BlogPost. run_monad.
  rewrite Hp, <- Huid, Hu, Hvalid, Hs, Hu.
  cbn [BlogPost.title BlogPost.id].
  assert (Hreq : form req =
    match method req with
    | GET => CreatePostForm.mk (BlogPost.title p) (BlogPost.subtitle p)
               (BlogPost.img_url p) (BlogPost.body p)
    | POST => form req
    end).
  { unfold validate_on_submit in Hvalid. destruct (method req);
      [discriminate|reflexivity]. }
  rewrite <- Hreq, Hid.
  rewrite (proj2 (String.eqb_neq _ _) Hptitle). cbn [negb andb].
  assert (Hex : existsb
                  (fun q0 => negb (BlogPost.id q0 =? post_id)
                             && String.eqb (BlogPost.title q0)
                                  (CreatePostForm.title (form req)))
                  (blog_posts (db w)) = true).
  { apply existsb_exists. exists q. split; [exact Hq|].
    apply andb_true_iff. split.
    - now apply negb_true_iff, Nat.eqb_neq.
    - now apply String.eqb_eq. }
  now rewrite Hex.
Qed.

(** X13.  What each route leaves alone: the front page, the post page
    and the two static pages change nothing at all; login and logout
    never touch the store; registration never touches the posts; and
    creating, editing or deleting a post never touches the users, the
    session or the flashes. *)
Theorem route_frames (c : Call) (w : World) :
  let w' := snd (dispatch c w) in
  match c with
  | call_get_all_posts | call_show_post _ | call_about | call_contact =>
      w' = w
  | call_login _ => db w' = db w
  | call_logout => db w' = db w /\ flashes w' = flashes w
  | call_register _ _ => blog_posts (db w') = blog_posts (db w)
  | call_new_post _ _ | call_edit_post _ _ | call_delete _ =>
      users (db w') = users (db w)
      /\ session w' = session w
      /\ flashes w' = flashes w
  end.
Proof.
  destruct c; unfold_views; explore; repeat split;
    try congruence; now destruct w.
Qed.

(** X14.  A session whose id resolves to no stored user counts as
    anonymous: the front page reports nobody logged in, and every edit
    or delete of a stored post is refused with 403. *)
Theorem stale_session_is_anonymous (w : World) (i : nat) :
  session w = Some i ->
  get_User (db w) i = None ->
  dispatch call_get_all_posts w
  = (inr (render_template "index.html" (index_args (blog_posts (db w)) false)), w)
  /\ (forall post_id p req,
        get_BlogPost (db w) post_id = Some p ->
        dispatch (call_edit_post post_id req) w = (inl (HTTPException 403), w)
        /\ dispatch (call_delete post_id) w = (inl (HTTPException 403), w)).
Proof.
  intros Hs Hnone. split.
  - cbn [dispatch route fst]. unfold get_all_posts. run_monad.
    now rewrite Hs, Hnone.
  - intros post_id p req Hp.
    cbn [dispatch edit_post_stack delete_post_stack route fst].
    rewrite !(admin_or_author_run _ _ _ w p Hp).
    unfold is_author. now rewrite Hs, Hnone.
Qed.

End Routes.

(** ** The further properties on the demo store *)

Lemma errors_are_atomic_witness :
  snd (@dispatch demo_forms demo_security (call_show_post 7) as_alice) = as_alice.
Proof.
  apply (@errors_are_atomic demo_forms demo_security (call_show_post 7)
           as_alice (HTTPException 404)).
  reflexivity.
Defined.

Lemma users_append_only_witness :
  get_User
    (db (snd (@dispatch demo_forms demo_security
                (call_register "s3"
                   (mkRequest POST (RegisterForm.mk "carol" "c@x.com" "pw3")))
                as_guest))) 1
  = Some alice.
Proof.
  destruct (@users_append_only demo_forms demo_security
              (call_register "s3"
                 (mkRequest POST (RegisterForm.mk "carol" "c@x.com" "pw3")))
              as_guest) as [_ Hkept].
  now apply Hkept.
Defined.

Lemma only_the_owner_changes_a_post_witness :
  get_BlogPost
    (db (snd (@dispatch demo_forms demo_security
                (call_edit_post 1 (mkRequest POST second_post)) as_bob))) 1
  = Some hello.
Proof.
  apply (@only_the_owner_changes_a_post demo_forms demo_security
           (call_edit_post 1 (mkRequest POST second_post)) as_bob 1 hello);
    reflexivity.
Defined.

Lemma id_owner_date_are_fixed_witness :
  BlogPost.id (BlogPost.mk 1 1 "Hello again" "second" "April 05, 2024"
                 "more text" "again.png") = BlogPost.id hello
  /\ BlogPost.user_id (BlogPost.mk 1 1 "Hello again" "second" "April 05, 2024"
                         "more text" "again.png") = BlogPost.user_id hello
  /\ BlogPost.date (BlogPost.mk 1 1 "Hello again" "second" "April 05, 2024"
                      "more text" "again.png") = BlogPost.date hello.
Proof.
  apply (@id_owner_date_are_fixed demo_forms demo_security
           (call_edit_post 1 (mkRequest POST second_post)) as_alice 1);
    reflexivity.
Defined.

Lemma reachable_wellformed_witness : wellformed (db after_first_post).
Proof.
  apply (@reachable_wellformed demo_forms demo_security).
  exact after_first_post_reachable.
Defined.

Lemma register_logs_in_the_new_user_witness :
  exists new_user,
    users (db (snd (@dispatch demo_forms demo_security
                      (call_register "s1"
                         (mkRequest POST (RegisterForm.mk "alice" "a@x.com" "pw1")))
                      initial_world))) = [new_user]
    /\ User.password new_user = "s1$pw1".
Proof.
  destruct (@register_logs_in_the_new_user demo_forms demo_security "s1"
              (mkRequest POST (RegisterForm.mk "alice" "a@x.com" "pw1"))
              initial_world eq_refl)
    as (new_user & _ & Husers & _ & _ & _ & Hpw & _).
  - intros u [].
  - exists new_user. split; [exact Husers|exact Hpw].
Defined.

Lemma register_then_login_witness :
  exists new_user,
    @dispatch demo_forms demo_security
      (call_login (mkRequest POST (LoginForm.mk "a@x.com" "pw1")))
      (mkWorld (db after_register) None [])
    = (inr (redirect (url_for "get_all_posts" None)),
       mkWorld (db after_register) (Some (User.id new_user)) []).
Proof.
  destruct (@register_then_login demo_forms demo_security "s1"
              (mkRequest POST (RegisterForm.mk "alice" "a@x.com" "pw1"))
              initial_world None []
              (mkRequest POST (LoginForm.mk "a@x.com" "pw1")) eq_refl eq_refl)
    as (new_user & _ & _ & Hlogin & _);
    [intros u []|reflexivity|reflexivity|reflexivity|].
  exists new_user. exact Hlogin.
Defined.

Lemma demo_db_wellformed : wellformed demo_db.
Proof.
  repeat split; unfold unique_User_ids, unique_BlogPost_ids, unique_emails,
    unique_titles; cbn; repeat constructor; cbn; intuition discriminate.
Defined.

Lemma login_establishes_identity_witness :
  is_author
    (snd (@dispatch demo_forms demo_security
            (call_login (mkRequest POST (LoginForm.mk "a@x.com" "pw1"))) as_guest))
    hello = true.
Proof.
  destruct (@login_establishes_identity demo_forms demo_security
              (mkRequest POST (LoginForm.mk "a@x.com" "pw1")) as_guest alice
              demo_db_wellformed (or_introl eq_refl) eq_refl eq_refl eq_refl)
    as (_ & _ & Hgate).
  now apply Hgate.
Defined.

Lemma new_post_then_show_witness :
  @dispatch demo_forms demo_security (call_show_post 2)
    (snd (@dispatch demo_forms demo_security
            (call_new_post "May 01, 2024" (mkRequest POST second_post)) as_bob))
  = (inr (render_template "post.html"
            (post_args (BlogPost.mk 2 2 "Hello again" "second" "May 01, 2024"
                          "more text" "again.png"))),
     snd (@dispatch demo_forms demo_security
            (call_new_post "May 01, 2024" (mkRequest POST second_post)) as_bob)).
Proof.
  destruct (@new_post_then_show demo_forms demo_security "May 01, 2024"
              (mkRequest POST second_post) as_bob bob eq_refl eq_refl)
    as (_ & _ & Hshow & _).
  - intros p [<-|[]]. discriminate.
  - exact Hshow.
Defined.

Lemma delete_then_show_is_404_witness :
  @dispatch demo_forms demo_security (call_show_post 1)
    (snd (@dispatch demo_forms demo_security (call_delete 1) as_alice))
  = (inl (HTTPException 404),
     snd (@dispatch demo_forms demo_security (call_delete 1) as_alice)).
Proof.
  destruct (@delete_then_show_is_404 demo_forms demo_security 1 hello as_alice
              eq_refl eq_refl) as (_ & _ & Hshow & _).
  now apply Hshow.
Defined.

Lemma logout_then_gate_refuses_witness :
  @dispatch demo_forms demo_security (call_delete 1)
    (snd (@dispatch demo_forms demo_security call_logout as_alice))
  = (inl (HTTPException 403),
     snd (@dispatch demo_forms demo_security call_logout as_alice)).
Proof.
  destruct (@logout_then_gate_refuses demo_forms demo_security as_alice)
    as (_ & _ & _ & Hgate).
  destruct (Hgate 1 hello (mkRequest GET first_post) eq_refl) as [_ Hdelete].
  exact Hdelete.
Defined.

Lemma edit_post_duplicate_title_witness :
  @dispatch demo_forms demo_security
    (call_edit_post 1 (mkRequest POST second_post))
    (mkWorld two_posts_db (Some 1) [])
  = (inl (Unhandled (IntegrityError "blog_posts.title")),
     mkWorld two_posts_db (Some 1) []).
Proof.
  apply (@edit_post_duplicate_title demo_forms demo_security 1 hello
           (BlogPost.mk 2 2 "Hello again" "second" "May 01, 2024"
              "more text" "again.png"));
    try reflexivity.
  - right. now left.
  - discriminate.
  - discriminate.
Defined.

Lemma stale_session_is_anonymous_witness :
  @dispatch demo_forms demo_security (call_delete 1)
    (mkWorld demo_db (Some 9) [])
  = (inl (HTTPException 403), mkWorld demo_db (Some 9) []).
Proof.
  destruct (@stale_session_is_anonymous demo_forms demo_security
              (mkWorld demo_db (Some 9) []) 9 eq_refl eq_refl) as [_ Hgate].
  destruct (Hgate 1 hello (mkRequest GET first_post) eq_refl) as [_ Hdelete].
  exact Hdelete.
Defined.
